(** * The text-to-slide normalization pipeline of [backend/app.py]

    A shallow embedding of [parse_structured_content], [format_slide_content],
    [truncate_structured_content], [get_enhanced_fallback_content] and of the
    re-parse done by [create_canva_style_powerpoint], followed by the
    properties of the pipeline.

    A Python [str] is a sequence of Unicode code points and [len] counts
    code points, so a string is a list of code points here. *)

From Stdlib Require Import List NArith ZArith Bool Arith Lia.
From Stdlib.Strings Require String Byte.
From Stdlib Require DecimalString.
Import String.StringSyntax.
From Equations Require Import Equations.
Import ListNotations.

(** ** Strings *)

Definition char := N.
Definition pystr := list char.

Definition NL : char := 10%N.

(** *** String literals

    The source file is UTF-8.  [lit] reads a literal the way Python does:
    the bytes are decoded to code points and the escape [\n] becomes a line
    feed (no other escape occurs in the literals used below). *)

Definition utf8_lead (b : N) : N :=
  if (b <? 128)%N then b
  else if (b <? 224)%N then (b - 192)%N
  else if (b <? 240)%N then (b - 224)%N
  else (b - 240)%N.

Definition utf8_step (acc : list N) (b : N) : list N :=
  if ((128 <=? b) && (b <? 192))%N
  then match acc with
       | c :: r => (c * 64 + (b - 128))%N :: r
       | [] => []
       end
  else utf8_lead b :: acc.

Definition utf8_decode (bs : list N) : pystr :=
  rev (fold_left utf8_step bs []).

Fixpoint unescape (s : pystr) : pystr :=
  match s with
  | 92%N :: 110%N :: r => NL :: unescape r
  | c :: r => c :: unescape r
  | [] => []
  end.

Definition lit (s : String.string) : pystr :=
  unescape (utf8_decode (map (fun b => N.of_nat (Byte.to_nat b))
                             (String.list_byte_of_string s))).

Arguments lit s%_string_scope.

(** *** The Unicode character database

    [str.strip], [str.isupper] and [str.upper] read CPython's Unicode tables,
    which are not part of the repository: they are parameters. *)

Class UnicodeData := {
  isspace_c : char -> bool;      (* Py_UNICODE_ISSPACE *)
  isupper_c : char -> bool;      (* Py_UNICODE_ISUPPER *)
  islower_c : char -> bool;      (* Py_UNICODE_ISLOWER *)
  istitle_c : char -> bool;      (* Py_UNICODE_ISTITLE *)
  toupper_full : char -> pystr   (* _PyUnicode_ToUpperFull *)
}.

(** The tables restricted to what the examples need: CPython's white space,
    and the letters of ASCII; every other code point is uncased and is its
    own upper case.  It agrees with CPython on all code points below 128, on
    the bullet U+2022 and on the emoji markers. *)

Definition ascii_isspace (c : char) : bool :=
  ((9 <=? c) && (c <=? 13) || (28 <=? c) && (c <=? 32) || (c =? 133) || (c =? 160)
   || (c =? 5760) || (8192 <=? c) && (c <=? 8202) || (c =? 8232) || (c =? 8233)
   || (c =? 8239) || (c =? 8287) || (c =? 12288))%N.

Definition ascii_isupper (c : char) : bool := ((65 <=? c) && (c <=? 90))%N.
Definition ascii_islower (c : char) : bool := ((97 <=? c) && (c <=? 122))%N.
Definition ascii_toupper (c : char) : pystr :=
  if ascii_islower c then [(c - 32)%N] else [c].

Definition ascii_tables : UnicodeData := {|
  isspace_c := ascii_isspace;
  isupper_c := ascii_isupper;
  islower_c := ascii_islower;
  istitle_c := fun _ => false;
  toupper_full := ascii_toupper
|}.

(** *** String methods *)

Definition is_empty (s : pystr) : bool :=
  match s with [] => true | _ :: _ => false end.

(** Truth value of a string: non-empty. *)
Definition truthy (s : pystr) : bool := negb (is_empty s).

(** [s.startswith(p)] *)
Fixpoint startswith (s p : pystr) : bool :=
  match p, s with
  | [], _ => true
  | _ :: _, [] => false
  | a :: p', b :: s' => (a =? b)%N && startswith s' p'
  end.

(** [p in s] *)
Fixpoint contains (p s : pystr) : bool :=
  startswith s p ||
  match s with
  | [] => false
  | _ :: s' => contains p s'
  end.

(** [s.split('\n')] *)
Fixpoint split_lines (s : pystr) : list pystr :=
  match s with
  | [] => [[]]
  | c :: r =>
      if (c =? NL)%N then [] :: split_lines r
      else match split_lines r with
           | l :: ls => (c :: l) :: ls
           | [] => [[c]]
           end
  end.

(** ['\n'.join(ls)] *)
Fixpoint join_lines (ls : list pystr) : pystr :=
  match ls with
  | [] => []
  | [l] => l
  | l :: ls' => l ++ NL :: join_lines ls'
  end.

(** [s[:stop]] for an integer [stop], negative stops counting from the end. *)
Definition slice_to (s : pystr) (stop : Z) : pystr :=
  if (0 <=? stop)%Z then firstn (Z.to_nat stop) s
  else firstn (length s - Z.to_nat (- stop)) s.

Definition len (s : pystr) : Z := Z.of_nat (length s).

Section WithUnicode.

Context {U : UnicodeData}.

Fixpoint lstrip (s : pystr) : pystr :=
  match s with
  | c :: r => if isspace_c c then lstrip r else s
  | [] => []
  end.

(** [s.strip()] *)
Definition strip (s : pystr) : pystr := rev (lstrip (rev (lstrip s))).

(** [s.isupper()]: no lower-case or title-case character and at least one
    upper-case character (the loop of [unicode_isupper_impl]; its shortcut
    for a string of one character only matters for lines that the length
    test of [is_title_line] rejects anyway). *)
Fixpoint isupper_loop (cased : bool) (s : pystr) : bool :=
  match s with
  | [] => cased
  | c :: r =>
      if islower_c c || istitle_c c then false
      else isupper_loop (cased || isupper_c c) r
  end.

Definition isupper (s : pystr) : bool := isupper_loop false s.

(** [s.upper()] *)
Definition upper (s : pystr) : pystr := flat_map toupper_full s.

End WithUnicode.

(** ** The pipeline *)

(** The accumulator [current_slide] of [parse_structured_content]: a dict
    with the keys "title", "subheading" and "content". *)
Record slide_data := {
  title : pystr;
  subheading : pystr;
  content : list pystr
}.

(** The emoji markers of a subheading line (some are several code points). *)
Definition emoji_markers : list pystr :=
  [lit "🎯"; lit "📝"; lit "🌬️"; lit "💪"; lit "🧠"; lit "🌟"; lit "🚀";
   lit "⚠️"; lit "📅"; lit "👨‍🏫"; lit "📚"; lit "💼"; lit "🎉"].

(** ['SUBHEADING:' in line or any(emoji in line for emoji in [...])] *)
Definition has_subheading_marker (line : pystr) : bool :=
  contains (lit "SUBHEADING:") line
  || existsb (fun emoji => contains emoji line) emoji_markers.

(** [line.startswith('•') or line.startswith('-')] *)
Definition has_bullet_marker (line : pystr) : bool :=
  startswith line (lit "•") || startswith line (lit "-").

Definition filler_bullet : pystr :=
  lit "• Additional detailed point for comprehensive coverage".

Definition export_filler_bullet : pystr :=
  lit "• Additional comprehensive guidance for complete practice".

(** The loop [while len(lines) < 5: lines.append(filler)], which
    [format_slide_content] runs with [filler_bullet] and the export path with
    [export_filler_bullet]. *)
Equations? pad_to_five (filler : pystr) (lines : list pystr) : list pystr
  by wf (5 - length lines) lt :=
  pad_to_five filler lines with lt_dec (length lines) 5 => {
    | left _ => pad_to_five filler (lines ++ [filler]);
    | right _ => lines }.
Proof.
  change (5 - length (lines ++ [filler]) < 5 - length lines).
  rewrite length_app; simpl length; lia.
Qed.

Definition pad_bullets (content_lines : list pystr) : list pystr :=
  pad_to_five filler_bullet content_lines.

(** The [while len(slides) < 13] loop of [parse_structured_content].  The
    subscript [len(slides) % len(enhanced_slides)] is read with a default:
    it is always in range (see [fill_index_in_range]). *)
Equations? fill_slides (enhanced_slides slides : list pystr) : list pystr
  by wf (13 - length slides) lt :=
  fill_slides enhanced_slides slides with lt_dec (length slides) 13 => {
    | left _ =>
        fill_slides enhanced_slides
          (slides ++ [nth (length slides mod length enhanced_slides) enhanced_slides []]);
    | right _ => slides }.
Proof.
  match goal with
  | |- context [slides ++ [?e]] =>
      change (13 - length (slides ++ [e]) < 13 - length slides)
  end.
  rewrite length_app; simpl length; lia.
Qed.

(** The [for line in lines] loop of [truncate_structured_content], with its
    variables [truncated] and [total_length]. *)
Fixpoint truncate_loop (max_chars : Z) (lines truncated : list pystr) (total_length : Z)
  : list pystr :=
  match lines with
  | [] => truncated
  | line :: rest =>
      if (total_length + len line <? max_chars)%Z
      then truncate_loop max_chars rest (truncated ++ [line]) (total_length + len line + 1)
      else truncated
  end.

Section Pipeline.

Context {U : UnicodeData}.

Definition truncate_structured_content (content : pystr) (max_chars : Z) : pystr :=
  if (len content >? max_chars)%Z then
    let lines := split_lines content in
    let truncated := truncate_loop max_chars lines [] 0 in
    let result := join_lines truncated in
    if truthy (strip result) then result
    else slice_to content (max_chars - 3) ++ lit "..."
  else content.

(** [f"{title}\n{subheading}\n{content}"] with at most six bullets.  The
    three keys are always present, so the defaults of [slide_data.get] are
    never used; the filler bullets are appended to the accumulator's own
    list, which is not read again after the slide is formatted. *)
Definition full_content (slide : slide_data) : pystr :=
  title slide ++ lit "\n" ++ subheading slide ++ lit "\n"
  ++ join_lines (firstn 6 (pad_bullets (content slide))).

Definition format_slide_content (slide : slide_data) : pystr :=
  truncate_structured_content (full_content slide) 500.

Definition get_enhanced_fallback_content (asanas_name : pystr) : list pystr :=
  [ lit "MASTERING " ++ upper asanas_name ++ lit "\n🎯 SUBHEADING: Transform Your Yoga Journey\n• Foundational pose suitable for beginners to advanced practitioners\n• Builds comprehensive strength, balance and body awareness\n• Perfect integration into daily morning or evening routines\n• Creates profound connection between physical and mental states\n• Significantly enhances overall posture and spinal health\n• Recommended by yoga therapists for holistic wellness approach";
    lit "STEP-BY-STEP GUIDANCE\n📝 SUBHEADING: Perfect Your Alignment & Technique\n• Start with proper foot placement and weight distribution\n• Engage core muscles while maintaining relaxed breathing\n• Align spine vertically with natural curvature maintained\n• Position shoulders correctly away from ear position\n• Coordinate subtle movements with breath patterns\n• Maintain steady gaze and focused mental attention";
    lit "BREATHING TECHNIQUES\n🌬️ SUBHEADING: Master Conscious Breathing Patterns\n• Practice deep diaphragmatic breathing throughout entire pose\n• Coordinate inhalation with expansion and lifting movements\n• Synchronize exhalation with grounding and stabilizing actions\n• Maintain consistent, rhythmic breathing pattern always\n• Incorporate advanced pranayama techniques when ready\n• Use breath as anchor for mental focus and concentration";
    lit "PHYSICAL BENEFITS\n💪 SUBHEADING: Transform Your Body Completely\n• Dramatically improves flexibility and joint mobility\n• Significantly strengthens core and postural muscles\n• Enhances overall body alignment and spinal health\n• Increases blood circulation and oxygen flow\n• Improves balance and proprioception significantly\n• Reduces risk of injury and chronic pain";
    lit "MENTAL BENEFITS\n🧠 SUBHEADING: Achieve Mental Clarity & Peace\n• Effectively reduces stress and anxiety levels\n• Improves mental focus and concentration abilities\n• Enhances mind-body connection and self-awareness\n• Promotes emotional balance and stability\n• Increases mindfulness and present moment awareness\n• Supports overall mental health and wellbeing";
    lit "BEGINNER FRIENDLY\n🌟 SUBHEADING: Start Your Journey Confidently\n• Simple modifications available for all ability levels\n• Progressive learning path with clear milestones\n• Patient, supportive approach to skill development\n• Encouraging community and resources available\n• Safe practice guidelines for new practitioners\n• Celebrating small victories and progress";
    lit "ADVANCED VARIATIONS\n🚀 SUBHEADING: Challenge Your Practice Further\n• Extended duration holds for strength building\n• Complex variations for experienced practitioners\n• Integration into flowing vinyasa sequences\n• Advanced breathing and bandha applications\n• Partner and assisted variations available\n• Creative expressions and personal adaptations";
    lit "SAFETY PRECAUTIONS\n⚠️ SUBHEADING: Practice Smart & Stay Safe\n• Always listen to your body's signals and limitations\n• Avoid pushing beyond comfortable range of motion\n• Proper warm-up and preparation are absolutely essential\n• Consult healthcare providers for existing conditions\n• Use props and modifications when necessary\n• Practice under qualified guidance when starting";
    lit "DAILY PRACTICE ROUTINE\n📅 SUBHEADING: Build Consistent Habits\n• Morning practice ideal for energy and focus\n• 15-20 minutes daily for optimal results\n• Gradual progression in difficulty and duration\n• Regular self-assessment and adjustment\n• Integration with other wellness practices\n• Tracking progress and celebrating improvements";
    lit "TEACHING METHODOLOGY\n👨‍🏫 SUBHEADING: Share Knowledge Effectively\n• Clear, concise verbal cues and instructions\n• Comprehensive visual demonstrations and examples\n• Individualized adjustments and modifications\n• Positive, encouraging feedback and reinforcement\n• Safe and supportive learning environment\n• Progressive skill building approach";
    lit "PHILOSOPHICAL FOUNDATIONS\n📚 SUBHEADING: Deepen Your Understanding\n• Ancient wisdom and modern science integration\n• Holistic approach to health and wellness\n• Connection to larger yoga philosophy system\n• Spiritual dimensions of physical practice\n• Ethical principles and lifestyle applications\n• Personal transformation through consistent practice";
    lit "MODERN APPLICATIONS\n💼 SUBHEADING: Integrate Into Daily Life\n• Office chair variations for workplace wellness\n• Quick 5-minute break routines for busy schedules\n• Effective stress management tool for modern life\n• Family and group practice opportunities\n• Community building through shared practice\n• Lifestyle integration for sustainable benefits";
    lit "CONCLUSION & NEXT STEPS\n🎉 SUBHEADING: Continue Your Growth Journey\n• Consistent daily practice is absolutely essential\n• Progressive learning path with clear milestones\n• Enjoy the process and celebrate each achievement\n• Share knowledge and experience with others\n• Explore related poses and deeper practices\n• Lifetime journey of learning and growth" ].

(** The test that starts a new slide:
    [line.startswith('SLIDE') or (line.isupper() and len(line) > 10)]. *)
Definition is_title_line (line : pystr) : bool :=
  startswith line (lit "SLIDE") || (isupper line && (len line >? 10)%Z).

Definition empty_slide : slide_data :=
  {| title := lit ""; subheading := lit ""; content := [] |}.

(** One iteration of the [for line in lines] loop of
    [parse_structured_content] on the state [(slides, current_slide)]. *)
Definition scan_line (st : list pystr * slide_data) (raw : pystr)
  : list pystr * slide_data :=
  let '(slides, current_slide) := st in
  let line := strip raw in
  if is_title_line line then
    let slides :=
      if truthy (title current_slide)
      then slides ++ [format_slide_content current_slide]
      else slides in
    (slides, {| title := line; subheading := lit ""; content := [] |})
  else if has_subheading_marker line then
    (slides, {| title := title current_slide;
                subheading := line;
                content := content current_slide |})
  else if has_bullet_marker line then
    (slides, {| title := title current_slide;
                subheading := subheading current_slide;
                content := content current_slide ++ [line] |})
  else (slides, current_slide).

(** The slides at the end of the scan, the last one included. *)
Definition scanned_slides (content : pystr) : list pystr :=
  let '(slides, current_slide) :=
    fold_left scan_line (split_lines content) ([], empty_slide) in
  if truthy (title current_slide)
  then slides ++ [format_slide_content current_slide]
  else slides.

Definition parse_structured_content (content asanas_name : pystr) : list pystr :=
  let slides := scanned_slides content in
  let enhanced_slides := get_enhanced_fallback_content asanas_name in
  firstn 13 (fill_slides enhanced_slides slides).

(** *** The export path

    [create_canva_style_powerpoint] reads the structure of slide [i] back
    from its [content] string. *)

(** [f"Slide {i+1}"] *)
Definition slide_label (i : nat) : pystr :=
  lit "Slide " ++ lit (DecimalString.NilEmpty.string_of_uint (Nat.to_uint (i + 1))).

(** One iteration of [for line in content_lines[1:]] on the state
    [(subheading, bullet_points)]. *)
Definition export_line (st : pystr * list pystr) (line : pystr) : pystr * list pystr :=
  let '(subheading, bullet_points) := st in
  if truthy (strip line) && has_subheading_marker line then (line, bullet_points)
  else if truthy (strip line) && has_bullet_marker line then
    (subheading, bullet_points ++ [line])
  else st.

(** The title, subheading and bullets read back from a content string. *)
Definition export_reparse (i : nat) (content : pystr) : pystr * pystr * list pystr :=
  let content_lines := split_lines content in
  let title := match content_lines with
               | t :: _ => t
               | [] => slide_label i
               end in
  let '(subheading, bullet_points) :=
    fold_left export_line (tl content_lines) (lit "", []) in
  (title, subheading, bullet_points).

(** The bullets the export path renders: padded to five, at most six. *)
Definition export_bullets (i : nat) (content : pystr) : list pystr :=
  firstn 6 (pad_to_five export_filler_bullet (snd (export_reparse i content))).

End Pipeline.

(** ** Specification-level views of the scan

    The accumulators that the scan finalizes, kept as records instead of
    being formatted: [scanned_slides] is their image under
    [format_slide_content] (lemma [scanned_slides_accumulators]). *)

(** A string without a line feed: one line. *)
Definition no_NL (s : pystr) : Prop := ~ In NL s.

(** The length of ['\n'.join(ls)] plus one: every line and its separator. *)
Definition total_len (ls : list pystr) : Z :=
  fold_right (fun l acc => (len l + 1 + acc)%Z) 0%Z ls.

Section Views.

Context {U : UnicodeData}.

Definition acc_line (st : list slide_data * slide_data) (raw : pystr)
  : list slide_data * slide_data :=
  let '(done, current_slide) := st in
  let line := strip raw in
  if is_title_line line then
    ((if truthy (title current_slide) then done ++ [current_slide] else done),
     {| title := line; subheading := lit ""; content := [] |})
  else if has_subheading_marker line then
    (done, {| title := title current_slide;
              subheading := line;
              content := content current_slide |})
  else if has_bullet_marker line then
    (done, {| title := title current_slide;
              subheading := subheading current_slide;
              content := content current_slide ++ [line] |})
  else (done, current_slide).

Definition accumulators (content : pystr) : list slide_data :=
  let '(done, current_slide) :=
    fold_left acc_line (split_lines content) ([], empty_slide) in
  if truthy (title current_slide) then done ++ [current_slide] else done.

(** The lines of the input that trigger title detection, stripped. *)
Definition detected_titles (content : pystr) : list pystr :=
  filter is_title_line (map strip (split_lines content)).

(** The bullet lines of a rendered slide: the lines after the title line and
    the subheading line that start with a bullet marker. *)
Definition bullet_lines (rendered : pystr) : list pystr :=
  filter has_bullet_marker (skipn 2 (split_lines rendered)).

(** What the scan assigns to the lines of one slide's content string: the
    fields of the accumulator, when the scan builds exactly one. *)
Definition normalizer_reading (text : pystr) : option (pystr * pystr * list pystr) :=
  match accumulators text with
  | [slide] => Some (title slide, subheading slide, content slide)
  | _ => None
  end.

(** A line that begins with the token SLIDE in any letter case. *)
Definition begins_with_slide_any_case (line : pystr) : bool :=
  startswith (upper line) (lit "SLIDE").

(** The same with the case folding of ASCII alone, which needs no table: a
    line whose first five characters are the letters of SLIDE, each in
    upper or in lower case. *)
Definition ascii_upper_char (c : char) : char :=
  if ((97 <=? c) && (c <=? 122))%N then (c - 32)%N else c.

Definition begins_with_slide_letters (line : pystr) : bool :=
  startswith (map ascii_upper_char line) (lit "SLIDE").

(** A slide body with the given title text: the title, a subheading line
    that carries a marker, and six bullet lines, joined by newlines. *)
Definition is_slide_body (title body : pystr) : Prop :=
  exists subheading bullets,
    body = title ++ lit "\n" ++ subheading ++ lit "\n" ++ join_lines bullets
    /\ ~ In NL subheading
    /\ has_subheading_marker subheading = true
    /\ length bullets = 6
    /\ Forall (fun bullet => ~ In NL bullet) bullets
    /\ Forall (fun bullet => has_bullet_marker bullet = true) bullets.

(** The same as a test on the lines of a body. *)
Definition body_ok (body : pystr) : bool :=
  match split_lines body with
  | _ :: subheading :: bullets =>
      has_subheading_marker subheading
      && (length bullets =? 6) && forallb has_bullet_marker bullets
  | _ => false
  end.

(** The bullets that [format_slide_content] joins: padded to five, at most
    six. *)
Definition rendered_bullets (slide : slide_data) : list pystr :=
  firstn 6 (pad_bullets (content slide)).

(** The titles finalized or pending in a scan state. *)
Definition pending_titles (st : list slide_data * slide_data) : list pystr :=
  map title (fst st) ++ (if truthy (title (snd st)) then [title (snd st)] else []).

(** *** The invariant of the scan

    A finalized title is a stripped, non-empty line; subheading and bullets
    are lines, and every bullet starts with a bullet marker. *)

Definition title_ok (t : pystr) : Prop :=
  (exists c r, t = c :: r /\ isspace_c c = false) /\ no_NL t.

Definition fields_ok (slide : slide_data) : Prop :=
  no_NL (subheading slide)
  /\ Forall no_NL (content slide)
  /\ Forall (fun bullet => has_bullet_marker bullet = true) (content slide).

Definition well_formed_acc (slide : slide_data) : Prop :=
  title_ok (title slide) /\ fields_ok slide.

Definition scan_invariant (st : list slide_data * slide_data) : Prop :=
  Forall well_formed_acc (fst st)
  /\ fields_ok (snd st)
  /\ (truthy (title (snd st)) = true -> title_ok (title (snd st))).

End Views.

(** ** The content provider, the images and the endpoints

    The calls to the text-generation service and to the photo search are
    the only inputs from outside: what each call gives is an argument. *)

(** The outcome of [requests.post] in [get_comprehensive_yoga_content]:
    the call raised, or it gave a status code and, when [response.json()]
    and the lookups [result['choices'][0]['message']['content']] give a
    string, that string. *)
Inductive openrouter_outcome :=
| PostRaised
| PostResponded (status_code : Z) (generated : option pystr).

(** One entry of [data['results']] of the photo search: [urls.regular],
    [alt_description] (which may be null) and [user.name]. *)
Record photo := {
  urls_regular : pystr;
  alt_description : option pystr;
  user_name : pystr
}.

(** The outcome of [requests.get] in [get_canva_style_image]: the call, the
    decoding or a lookup raised, or it gave a status code and the list
    [data['results']]. *)
Inductive unsplash_outcome :=
| GetRaised
| GetResponded (status_code : Z) (results : list photo).

(** The dict that [get_canva_style_image] returns. *)
Record image := {
  url : pystr;
  alt : pystr;
  photographer : pystr;
  source : pystr
}.

Definition aesthetic_terms : list pystr :=
  [ lit "minimalist yoga aesthetic modern"; lit "yoga alignment professional detailed";
    lit "breathing meditation peaceful serene"; lit "yoga flexibility artistic beautiful";
    lit "mental wellness meditation calm"; lit "beginner yoga gentle supportive";
    lit "advanced yoga challenging achievement"; lit "yoga safety careful mindful";
    lit "daily routine morning yoga fresh"; lit "yoga teaching instructor guidance";
    lit "spiritual yoga philosophy deep"; lit "modern yoga lifestyle balanced";
    lit "yoga celebration achievement success" ].

Definition aesthetic_images : list pystr :=
  [ lit "https://images.unsplash.com/photo-1544367567-0f2fcb009e0b?ixlib=rb-4.0.3&w=800&fit=crop&q=80";
    lit "https://images.unsplash.com/photo-1506126613408-eca07ce68773?ixlib=rb-4.0.3&w=800&fit=crop&q=80";
    lit "https://images.unsplash.com/photo-1575052814086-f385e2e2ad1b?ixlib=rb-4.0.3&w=800&fit=crop&q=80";
    lit "https://images.unsplash.com/photo-1518611012118-696072aa579a?ixlib=rb-4.0.3&w=800&fit=crop&q=80";
    lit "https://images.unsplash.com/photo-1545389336-cf090694435e?ixlib=rb-4.0.3&w=800&fit=crop&q=80";
    lit "https://images.unsplash.com/photo-1599901854545-de86350faf80?ixlib=rb-4.0.3&w=800&fit=crop&q=80";
    lit "https://images.unsplash.com/photo-1549576490-b0b4831ef60a?ixlib=rb-4.0.3&w=800&fit=crop&q=80";
    lit "https://images.unsplash.com/photo-1599447292183-5dc08a0a9763?ixlib=rb-4.0.3&w=800&fit=crop&q=80";
    lit "https://images.unsplash.com/photo-1500462918059-b1a0cb512f1d?ixlib=rb-4.0.3&w=800&fit=crop&q=80";
    lit "https://images.unsplash.com/photo-1575052814086-f385e2e2ad1b?ixlib=rb-4.0.3&w=800&fit=crop&q=80";
    lit "https://images.unsplash.com/photo-1518611012118-696072aa579a?ixlib=rb-4.0.3&w=800&fit=crop&q=80";
    lit "https://images.unsplash.com/photo-1545389336-cf090694435e?ixlib=rb-4.0.3&w=800&fit=crop&q=80";
    lit "https://images.unsplash.com/photo-1599901854545-de86350faf80?ixlib=rb-4.0.3&w=800&fit=crop&q=80" ].

(** [image['alt_description'] or default] *)
Definition alt_or (alt_description : option pystr) (default : pystr) : pystr :=
  match alt_description with
  | Some a => if truthy a then a else default
  | None => default
  end.

(** [aesthetic_terms[slide_number % len(aesthetic_terms)]], read with a
    default: the subscript is in range. *)
Definition search_query_for (slide_number : nat) : pystr :=
  nth (slide_number mod length aesthetic_terms) aesthetic_terms [].

(** The dict returned for a photo of the search results. *)
Definition unsplash_image (picked : photo) (search_query : pystr) : image :=
  {| url := urls_regular picked;
     alt := alt_or (alt_description picked) (lit "Professional " ++ search_query);
     photographer := user_name picked;
     source := lit "unsplash" |}.

(** The dict returned from the curated list. *)
Definition curated_image (slide_number : nat) (search_query : pystr) : image :=
  {| url := nth (slide_number mod length aesthetic_images) aesthetic_images [];
     alt := lit "Professional yoga - " ++ search_query;
     photographer := lit "Wellness Photography Collective";
     source := lit "curated" |}.

(** [get_canva_style_image], for a slide number that is not negative (its
    caller passes an index of [enumerate]).  [api_key] is the module's
    [UNSPLASH_API_KEY]; an exception anywhere in the body gives [None]. *)
Definition get_canva_style_image
    (api_key : pystr) (outcome : unsplash_outcome)
    (asanas_name : pystr) (slide_number : nat) : option image :=
  let search_query := search_query_for slide_number in
  if truthy api_key then
    match outcome with
    | GetRaised => None
    | GetResponded status_code results =>
        if (status_code =? 200)%Z then
          match results with
          | [] => Some (curated_image slide_number search_query)
          | _ :: _ =>
              match nth_error results (slide_number mod length results) with
              | Some picked => Some (unsplash_image picked search_query)
              | None => None
              end
          end
        else Some (curated_image slide_number search_query)
    end
  else Some (curated_image slide_number search_query).

(** The display form of a slide title in the deck:
    [title[:45] + ('...' if len(title) > 45 else '')]. *)
Definition display_title (title : pystr) : pystr :=
  slice_to title 45 ++ (if (len title >? 45)%Z then lit "..." else lit "").

(** A JSON value as [request.get_json()] returns it: [None], a bool, an
    int, a float, a str, a list or a dict.  Of a float the handlers read
    only whether it is zero.  The members of an object are kept in the
    order of the document; a key that occurs twice has its last value. *)
#[warnings="-register-all"]
Inductive json :=
| JNull
| JBool (b : bool)
| JInt (z : Z)
| JFloat (nonzero : bool)
| JString (s : pystr)
| JArray (items : list json)
| JObject (members : list (pystr * json)).

Fixpoint str_eqb (a b : pystr) : bool :=
  match a, b with
  | [], [] => true
  | x :: a', y :: b' => (x =? y)%N && str_eqb a' b'
  | _, _ => false
  end.

(** The value of [key] in the dict made from [members], if any. *)
Definition obj_get (key : pystr) (members : list (pystr * json)) : option json :=
  fold_left (fun found member =>
               if str_eqb (fst member) key then Some (snd member) else found)
    members None.

(** The truth value of a JSON value. *)
Definition json_truthy (v : json) : bool :=
  match v with
  | JNull => false
  | JBool b => b
  | JInt z => negb (z =? 0)%Z
  | JFloat nonzero => nonzero
  | JString s => truthy s
  | JArray items => match items with [] => false | _ :: _ => true end
  | JObject members => match members with [] => false | _ :: _ => true end
  end.

(** [v[0]]: the first item of a list, the first character of a str; on
    every other value, and on an empty list or str, the subscript raises
    ([None] here). *)
Definition subscript_zero (v : json) : option json :=
  match v with
  | JArray (item :: _) => Some item
  | JString (c :: _) => Some (JString [c])
  | _ => None
  end.

Inductive http_method := POST | OPTIONS.

(** One entry of [presentation['slides']]: the keys "title", "content" and
    "image". *)
Record slide_entry := {
  entry_title : pystr;
  entry_content : pystr;
  entry_image : option image
}.

(** The dict [presentation] of [generate_presentation]. *)
Record presentation := {
  presentation_id : Z;
  presentation_title : pystr;
  presentation_asanas : list pystr;
  presentation_student_name : pystr;
  presentation_generated_at : pystr;
  presentation_slides : list slide_entry;
  presentation_status : pystr;
  presentation_message : pystr
}.

(** The responses of /generate: the empty answer to OPTIONS, an error
    object with its status code, or the presentation with status 200. *)
Inductive generate_response :=
| EmptyOk
| ErrorJson (status_code : Z) (message : pystr)
| PresentationJson (p : presentation).

(** What one request reads from outside: the key of the photo search, the
    outcome of the generation call, the outcome of the photo search for each
    slide, the value of [random.randint(1000, 9999)], the text of
    [datetime.now().isoformat()] and, when the handler catches an exception
    [e], the text of [str(e)]. *)
Record environment := {
  unsplash_api_key : pystr;
  openrouter : openrouter_outcome;
  unsplash : nat -> unsplash_outcome;
  random_id : Z;
  now_isoformat : pystr;
  exception_text : pystr
}.

(** [d.get(key, default)] *)
Definition get_default {A : Type} (value : option A) (default : A) : A :=
  match value with
  | Some v => v
  | None => default
  end.

Section Endpoints.

Context {U : UnicodeData}.

(** [get_comprehensive_yoga_content]: every failure inside the [try] block
    is answered with the fallback bank. *)
Definition get_comprehensive_yoga_content
    (outcome : openrouter_outcome) (asanas_name student_name : pystr) : list pystr :=
  match outcome with
  | PostResponded status_code (Some generated) =>
      if (status_code =? 200)%Z
      then parse_structured_content generated asanas_name
      else get_enhanced_fallback_content asanas_name
  | _ => get_enhanced_fallback_content asanas_name
  end.

(** The loop [for i, content in enumerate(slide_contents)] of
    [generate_presentation], from index [i] on, appending to [slides]. *)
Fixpoint append_slides
    (env : environment) (include_images : bool) (main_asana : pystr)
    (i : nat) (slide_contents : list pystr) (slides : list slide_entry)
  : list slide_entry :=
  match slide_contents with
  | [] => slides
  | content :: rest =>
      let slide_data :=
        {| entry_title := slide_label i;
           entry_content := content;
           entry_image :=
             if include_images
             then get_canva_style_image (unsplash_api_key env) (unsplash env i) main_asana i
             else None |} in
      append_slides env include_images main_asana (S i) rest (slides ++ [slide_data])
  end.

(** The slide entry that the loop builds at index [i]. *)
Definition slide_entry_at
    (env : environment) (include_images : bool) (main_asana : pystr)
    (i : nat) (content : pystr) : slide_entry :=
  {| entry_title := slide_label i;
     entry_content := content;
     entry_image :=
       if include_images
       then get_canva_style_image (unsplash_api_key env) (unsplash env i) main_asana i
       else None |}.

(** The dict [presentation] with its slides, once [main_asana],
    [student_name] and [include_images] are known. *)
Definition build_presentation
    (env : environment) (main_asana student_name : pystr) (include_images : bool)
  : presentation :=
  let slide_contents :=
    get_comprehensive_yoga_content (openrouter env) main_asana student_name in
  {| presentation_id := random_id env;
     presentation_title := main_asana ++ lit " - Comprehensive Yoga Guide";
     presentation_asanas := [main_asana];
     presentation_student_name := student_name;
     presentation_generated_at := now_isoformat env;
     presentation_slides :=
       append_slides env include_images main_asana 0 slide_contents [];
     presentation_status := lit "success";
     presentation_message := lit "Created premium comprehensive presentation! 🎨" |}.

(** The answer of the handler's [except Exception as e]. *)
Definition failed_to_generate (env : environment) : generate_response :=
  ErrorJson 500 (lit "Failed to generate: " ++ exception_text env).

(** [generate_presentation].  [body] is what [request.get_json()] gives, or
    [None] when it raises.  Inside the [try], an exception is raised by
    [data.get] when the body is no object, by [.strip()] when the student
    name is no string (this comes before the test of the asanas), by
    [asanas[0]] when the asanas cannot be subscripted, and by [.upper()] in
    the content provider and again in its fallback when the first asana is
    no string. *)
Definition generate_presentation
    (env : environment) (method : http_method) (body : option json)
  : generate_response :=
  match method with
  | OPTIONS => EmptyOk
  | POST =>
      match body with
      | Some (JObject data) =>
          let asanas := get_default (obj_get (lit "asanas") data) (JArray []) in
          match get_default (obj_get (lit "student_name") data) (JString (lit "")) with
          | JString name =>
              let student_name := strip name in
              let include_images :=
                get_default (obj_get (lit "include_images") data) (JBool true) in
              if negb (json_truthy asanas)
              then ErrorJson 400 (lit "Please select one asana")
              else
                match subscript_zero asanas with
                | Some (JString main_asana) =>
                    PresentationJson
                      (build_presentation env main_asana student_name
                         (json_truthy include_images))
                | _ => failed_to_generate env
                end
          | _ => failed_to_generate env
          end
      | _ => failed_to_generate env
      end
  end.

(** What a line is for the scan, once stripped.  [scan_line] reads a raw
    line only through [strip] (lemma [scan_line_stripped]). *)
Definition scan_stripped (st : list pystr * slide_data) (line : pystr)
  : list pystr * slide_data :=
  let '(slides, current_slide) := st in
  if is_title_line line then
    ((if truthy (title current_slide)
      then slides ++ [format_slide_content current_slide]
      else slides),
     {| title := line; subheading := lit ""; content := [] |})
  else if has_subheading_marker line then
    (slides, {| title := title current_slide;
                subheading := line;
                content := content current_slide |})
  else if has_bullet_marker line then
    (slides, {| title := title current_slide;
                subheading := subheading current_slide;
                content := content current_slide ++ [line] |})
  else (slides, current_slide).

(** The stripped lines from the first title line on. *)
Fixpoint from_first_title (lines : list pystr) : list pystr :=
  match lines with
  | [] => []
  | line :: rest => if is_title_line line then lines else from_first_title rest
  end.

(** The slides at the end of a scan state. *)
Definition final_slides (st : list pystr * slide_data) : list pystr :=
  if truthy (title (snd st))
  then fst st ++ [format_slide_content (snd st)]
  else fst st.

(** A stripped line that the scan acts on. *)
Definition is_classified (line : pystr) : bool :=
  is_title_line line || has_subheading_marker line || has_bullet_marker line.

(** The lines that decide the deck: stripped, classified, from the first
    title line on. *)
Definition significant_lines (text : pystr) : list pystr :=
  from_first_title (filter is_classified (map strip (split_lines text))).

(** A stripped line that the scan appends to the bullets of the slide being
    built. *)
Definition is_bullet_line (line : pystr) : bool :=
  negb (is_title_line line) && negb (has_subheading_marker line)
  && has_bullet_marker line.

(** A line that the export path reads back as it was written: it does not
    begin with white space. *)
Definition starts_unspaced (line : pystr) : Prop :=
  exists c r, line = c :: r /\ isspace_c c = false.

(** What the scan guarantees for the export path, beyond
    [well_formed_acc]: a subheading is empty or a marked line, and no bullet
    carries a subheading marker. *)
Definition export_ready (slide : slide_data) : Prop :=
  (subheading slide = []
   \/ (has_subheading_marker (subheading slide) = true
       /\ starts_unspaced (subheading slide)))
  /\ Forall (fun bullet => has_subheading_marker bullet = false
                           /\ starts_unspaced bullet) (content slide).

Definition export_invariant (st : list slide_data * slide_data) : Prop :=
  Forall export_ready (fst st) /\ export_ready (snd st).

End Endpoints.

(** ** Inputs of the worked examples *)

(** A slide with six bullets of 122 characters each. *)
Definition long_bullet : pystr := lit "- " ++ repeat 97%N 120.

Definition six_long_bullets : pystr :=
  join_lines (lit "SLIDE 1" :: repeat long_bullet 6).

Definition five_titles : pystr :=
  lit "SLIDE 1: A\n• a\nSLIDE 2: B\nSLIDE 3: C\n- c\nSLIDE 4: D\n🎯 SUBHEADING: d\nSLIDE 5: E".

Definition one_slide : pystr :=
  lit "SLIDE 1: POSE\n🎯 SUBHEADING: Begin\n• first point\n- second point\n\nplain prose".

Definition indented_bullet : pystr := lit "SLIDE 1: T\n  • point".


Definition untidy_text : pystr :=
  lit "intro\n  SLIDE 1: A  \n\n• a\nprose".

Definition tidy_text : pystr := lit "SLIDE 1: A\n• a".

(** * Properties *)

(** ** Lines: [split] and [join] *)

Lemma split_lines_not_nil (s : pystr) : split_lines s <> [].
Proof.
  destruct s as [|c r]; simpl; [discriminate|].
  destruct (c =? NL)%N; [discriminate|].
  destruct (split_lines r); discriminate.
Qed.

Lemma split_lines_cons (c : char) (r : pystr) :
  c <> NL ->
  split_lines (c :: r) = (c :: hd [] (split_lines r)) :: tl (split_lines r).
Proof.
  intros Hc. simpl. apply N.eqb_neq in Hc. rewrite Hc.
  pose proof (split_lines_not_nil r).
  destruct (split_lines r); [contradiction|reflexivity].
Qed.

Lemma split_lines_no_NL (s : pystr) : Forall no_NL (split_lines s).
Proof.
  induction s as [|c r IH]; simpl.
  - constructor; [intros []|constructor].
  - destruct (c =? NL)%N eqn:E.
    + constructor; [intros []|exact IH].
    + apply N.eqb_neq in E.
      pose proof (split_lines_not_nil r) as Hn.
      destruct (split_lines r) as [|l ls]; [contradiction|].
      inversion IH; subst.
      constructor; [|assumption].
      intros [H|H]; [congruence|contradiction].
Qed.

Lemma join_split (s : pystr) : join_lines (split_lines s) = s.
Proof.
  induction s as [|c r IH]; [reflexivity|].
  simpl. destruct (c =? NL)%N eqn:E.
  - apply N.eqb_eq in E. subst c.
    pose proof (split_lines_not_nil r) as Hn.
    simpl. destruct (split_lines r); [contradiction|].
    simpl. f_equal. exact IH.
  - pose proof (split_lines_not_nil r) as Hn.
    destruct (split_lines r) as [|l ls]; [contradiction|].
    destruct ls; simpl in *; f_equal; exact IH.
Qed.

Lemma split_app_NL (a r : pystr) :
  no_NL a -> split_lines (a ++ NL :: r) = a :: split_lines r.
Proof.
  induction a as [|c a IH]; intros Ha.
  - reflexivity.
  - assert (c <> NL) by (intros ->; apply Ha; left; reflexivity).
    assert (no_NL a) by (intros Hin; apply Ha; right; exact Hin).
    change ((c :: a) ++ NL :: r) with (c :: (a ++ NL :: r)).
    rewrite split_lines_cons by assumption.
    rewrite IH by assumption. reflexivity.
Qed.

Lemma split_no_NL (a : pystr) : no_NL a -> split_lines a = [a].
Proof.
  induction a as [|c a IH]; intros Ha; [reflexivity|].
  assert (c <> NL) by (intros ->; apply Ha; left; reflexivity).
  assert (no_NL a) by (intros Hin; apply Ha; right; exact Hin).
  rewrite split_lines_cons by assumption.
  rewrite IH by assumption. reflexivity.
Qed.

Lemma join_lines_cons (l : pystr) (ls : list pystr) :
  ls <> [] -> join_lines (l :: ls) = l ++ NL :: join_lines ls.
Proof. destruct ls; [contradiction|reflexivity]. Qed.

Lemma split_join (ls : list pystr) :
  ls <> [] -> Forall no_NL ls -> split_lines (join_lines ls) = ls.
Proof.
  induction ls as [|l ls IH]; intros Hn Hall; [contradiction|].
  inversion Hall; subst.
  destruct ls as [|l' ls'].
  - simpl. apply split_no_NL. assumption.
  - rewrite join_lines_cons by discriminate.
    rewrite split_app_NL by assumption.
    f_equal. apply IH; [discriminate|assumption].
Qed.

Lemma len_app (a b : pystr) : len (a ++ b) = (len a + len b)%Z.
Proof. unfold len. rewrite length_app. lia. Qed.

Lemma len_nonneg (a : pystr) : (0 <= len a)%Z.
Proof. unfold len. lia. Qed.

Lemma total_len_app (a b : list pystr) :
  total_len (a ++ b) = (total_len a + total_len b)%Z.
Proof. induction a as [|x a IH]; simpl; [reflexivity|]. rewrite IH. lia. Qed.

Lemma total_len_nonneg (a : list pystr) : (0 <= total_len a)%Z.
Proof.
  induction a as [|x a IH]; simpl; [lia|]. pose proof (len_nonneg x). lia.
Qed.

Lemma len_join (ls : list pystr) :
  ls <> [] -> len (join_lines ls) = (total_len ls - 1)%Z.
Proof.
  induction ls as [|l ls IH]; intros Hn; [contradiction|].
  destruct ls as [|l' ls'].
  - simpl. lia.
  - rewrite join_lines_cons by discriminate.
    rewrite len_app.
    change (NL :: join_lines (l' :: ls')) with ([NL] ++ join_lines (l' :: ls')).
    rewrite len_app, IH by discriminate.
    change (len [NL]) with 1%Z.
    change (total_len (l :: l' :: ls')) with (len l + 1 + total_len (l' :: ls'))%Z.
    lia.
Qed.

Lemma filter_all (A : Type) (f : A -> bool) (l : list A) :
  Forall (fun x => f x = true) l -> filter f l = l.
Proof.
  induction 1 as [|x l Hx _ IH]; [reflexivity|].
  simpl. rewrite Hx, IH. reflexivity.
Qed.

(** ** The truncation loop *)

Lemma truncate_loop_cons
    (max_chars : Z) (line : pystr) (rest truncated : list pystr) (total : Z) :
  truncate_loop max_chars (line :: rest) truncated total =
  if (total + len line <? max_chars)%Z
  then truncate_loop max_chars rest (truncated ++ [line]) (total + len line + 1)
  else truncated.
Proof. reflexivity. Qed.

(** The loop keeps an initial segment of the lines. *)
Lemma truncate_loop_prefix (max_chars : Z) (lines : list pystr) :
  forall truncated total,
    exists k, truncate_loop max_chars lines truncated total = truncated ++ firstn k lines.
Proof.
  induction lines as [|line rest IH]; intros truncated total; simpl.
  - exists 0. rewrite app_nil_r. reflexivity.
  - destruct (total + len line <? max_chars)%Z.
    + destruct (IH (truncated ++ [line]) (total + len line + 1)%Z) as [k Hk].
      exists (S k). rewrite Hk, <- app_assoc. reflexivity.
    + exists 0. rewrite app_nil_r. reflexivity.
Qed.

(** [total_length] is the length of the joined lines kept so far, plus one,
    and never exceeds the budget. *)
Lemma truncate_loop_total (max_chars : Z) (lines : list pystr) :
  forall truncated total,
    total = total_len truncated ->
    truncated = [] \/ (total <= max_chars)%Z ->
    let kept := truncate_loop max_chars lines truncated total in
    kept = [] \/ (total_len kept <= max_chars)%Z.
Proof.
  induction lines as [|line rest IH]; intros truncated total Ht Hb; simpl.
  - subst total. exact Hb.
  - destruct (total + len line <? max_chars)%Z eqn:E.
    + apply Z.ltb_lt in E. apply IH.
      * rewrite total_len_app. simpl. lia.
      * right. lia.
    + subst total. exact Hb.
Qed.

Lemma len_join_truncate_loop (max_chars : Z) (lines : list pystr) :
  (0 <= max_chars)%Z ->
  (len (join_lines (truncate_loop max_chars lines [] 0)) <= max_chars)%Z.
Proof.
  intros Hm.
  destruct (truncate_loop_total max_chars lines [] 0%Z
              eq_refl (or_introl eq_refl)) as [H|H].
  - rewrite H. simpl. exact Hm.
  - destruct (truncate_loop max_chars lines [] 0) eqn:E; [simpl; exact Hm|].
    rewrite len_join by discriminate. lia.
Qed.

Lemma slice_to_497 (s : pystr) : slice_to s (500 - 3) = firstn 497 s.
Proof. reflexivity. Qed.

Section TruncateFacts.

Context {U : UnicodeData}.

Lemma truncate_within_budget (s : pystr) :
  (len s <= 500)%Z -> truncate_structured_content s 500 = s.
Proof.
  intros H. unfold truncate_structured_content.
  destruct (len s >? 500)%Z eqn:E; [|reflexivity].
  apply Z.gtb_lt in E. lia.
Qed.

Lemma len_truncate (s : pystr) :
  (len (truncate_structured_content s 500) <= 500)%Z.
Proof.
  unfold truncate_structured_content.
  destruct (len s >? 500)%Z eqn:E.
  - apply Z.gtb_lt in E.
    destruct (truthy _).
    + apply len_join_truncate_loop. lia.
    + rewrite len_app, slice_to_497.
      unfold len in *. rewrite length_firstn.
      change (length (lit "...")) with 3. lia.
  - rewrite Z.gtb_ltb in E. apply Z.ltb_ge in E. exact E.
Qed.

End TruncateFacts.

(** ** The padding loops *)

Lemma pad_to_five_spec (filler : pystr) (lines : list pystr) :
  pad_to_five filler lines = lines ++ repeat filler (5 - length lines).
Proof.
  funelim (pad_to_five filler lines).
  - match goal with IH : pad_to_five _ _ = _ ++ repeat _ _ |- _ => rewrite IH end.
    rewrite length_app, <- app_assoc. simpl length.
    replace (5 - length lines) with (S (5 - (length lines + 1))) by lia.
    reflexivity.
  - replace (5 - length lines) with 0 by lia.
    rewrite app_nil_r. reflexivity.
Qed.

Lemma length_pad_to_five (filler : pystr) (lines : list pystr) :
  length (pad_to_five filler lines) = Nat.max 5 (length lines).
Proof. rewrite pad_to_five_spec, length_app, repeat_length. lia. Qed.

Lemma fill_slides_length (enhanced_slides slides : list pystr) :
  length (fill_slides enhanced_slides slides) = Nat.max 13 (length slides).
Proof.
  funelim (fill_slides enhanced_slides slides).
  - match goal with IH : length (fill_slides _ _) = _ |- _ => rewrite IH end.
    rewrite length_app. simpl length. lia.
  - lia.
Qed.

(** With a bank of 13 entries the loop appends the bank's entries from
    index [len(slides)] on. *)
Lemma fill_slides_spec (enhanced_slides slides : list pystr) :
  length enhanced_slides = 13 ->
  length slides <= 13 ->
  fill_slides enhanced_slides slides = slides ++ skipn (length slides) enhanced_slides.
Proof.
  funelim (fill_slides enhanced_slides slides); intros He Hs.
  - match goal with IH : _ -> _ -> fill_slides _ _ = _ |- _ => rewrite IH end;
      [|assumption|rewrite length_app; simpl; lia].
    rewrite length_app, <- app_assoc. simpl length. f_equal.
    rewrite He, Nat.mod_small by assumption.
    assert (Hlt : length slides < length enhanced_slides) by lia.
    clear - Hlt. revert enhanced_slides Hlt.
    induction (length slides) as [|n IH]; intros [|e es] Hlt; simpl in *; try lia.
    + reflexivity.
    + replace (n + 1) with (S n) in * by lia. simpl.
      specialize (IH es ltac:(lia)). replace (n + 1) with (S n) in IH by lia.
      exact IH.
  - rewrite skipn_all2 by lia. rewrite app_nil_r. reflexivity.
Qed.

(** The subscript of the padding loop is in range: no [IndexError], no
    division by zero. *)
Lemma fill_index_in_range (enhanced_slides slides : list pystr) :
  length enhanced_slides = 13 ->
  length slides mod length enhanced_slides < length enhanced_slides.
Proof. intros ->. apply Nat.mod_upper_bound. discriminate. Qed.

Section ScanFacts.

Context {U : UnicodeData}.

Lemma get_enhanced_fallback_content_length (asanas_name : pystr) :
  length (get_enhanced_fallback_content asanas_name) = 13.
Proof. reflexivity. Qed.

Lemma startswith_truthy (s p : pystr) :
  p <> [] -> startswith s p = true -> truthy s = true.
Proof. destruct p; [contradiction|]. destruct s; [discriminate|reflexivity]. Qed.

Lemma is_title_line_truthy (line : pystr) :
  is_title_line line = true -> truthy line = true.
Proof.
  unfold is_title_line. intros H. apply orb_true_iff in H as [H|H].
  - apply startswith_truthy in H; [exact H|discriminate].
  - apply andb_true_iff in H as [_ H]. destruct line; [discriminate|reflexivity].
Qed.

(** The scan and its record-keeping view run in step. *)
Lemma scan_acc_step (done : list slide_data) (current_slide : slide_data) (raw : pystr) :
  scan_line (map format_slide_content done, current_slide) raw =
  (map format_slide_content (fst (acc_line (done, current_slide) raw)),
   snd (acc_line (done, current_slide) raw)).
Proof.
  unfold scan_line, acc_line.
  destruct (is_title_line (strip raw)).
  - destruct (truthy (title current_slide)); simpl; rewrite ?map_app; reflexivity.
  - destruct (has_subheading_marker (strip raw)); [reflexivity|].
    destruct (has_bullet_marker (strip raw)); reflexivity.
Qed.

Lemma scan_acc_fold (lines : list pystr) :
  forall done current_slide,
    fold_left scan_line lines (map format_slide_content done, current_slide) =
    (map format_slide_content (fst (fold_left acc_line lines (done, current_slide))),
     snd (fold_left acc_line lines (done, current_slide))).
Proof.
  induction lines as [|raw lines IH]; intros done cur; [reflexivity|].
  cbn [fold_left]. rewrite scan_acc_step.
  destruct (acc_line (done, cur) raw) as [done' cur'].
  apply IH.
Qed.

Lemma scanned_slides_accumulators (content : pystr) :
  scanned_slides content = map format_slide_content (accumulators content).
Proof.
  unfold scanned_slides, accumulators.
  change (@nil pystr) with (map format_slide_content []).
  rewrite scan_acc_fold.
  destruct (fold_left acc_line (split_lines content) ([], empty_slide)) as [done cur].
  simpl. destruct (truthy (title cur)); [|reflexivity].
  rewrite map_app. reflexivity.
Qed.

Lemma pending_titles_fold (lines : list pystr) :
  forall st,
    pending_titles (fold_left acc_line lines st) =
    pending_titles st ++ filter is_title_line (map strip lines).
Proof.
  induction lines as [|raw lines IH]; intros [done cur].
  - simpl. rewrite app_nil_r. reflexivity.
  - cbn [fold_left]. rewrite IH. cbn [map filter].
    unfold acc_line. destruct (is_title_line (strip raw)) eqn:Et.
    + unfold pending_titles. cbn [fst snd title].
      rewrite (is_title_line_truthy _ Et).
      destruct (truthy (title cur)).
      * rewrite map_app. simpl. rewrite <- !app_assoc. reflexivity.
      * rewrite app_nil_r, <- app_assoc. reflexivity.
    + destruct (has_subheading_marker (strip raw)); [reflexivity|].
      destruct (has_bullet_marker (strip raw)); reflexivity.
Qed.

(** One accumulator per detected title, in order. *)
Lemma accumulators_titles (content : pystr) :
  map title (accumulators content) = detected_titles content.
Proof.
  unfold accumulators, detected_titles.
  pose proof (pending_titles_fold (split_lines content) ([], empty_slide)) as H.
  destruct (fold_left acc_line (split_lines content) ([], empty_slide)) as [done cur].
  unfold pending_titles in H. simpl in H. rewrite <- H.
  destruct (truthy (title cur)); [rewrite map_app|rewrite app_nil_r]; reflexivity.
Qed.

Lemma length_scanned_slides (content : pystr) :
  length (scanned_slides content) = length (detected_titles content).
Proof.
  rewrite scanned_slides_accumulators, length_map, <- accumulators_titles, length_map.
  reflexivity.
Qed.

End ScanFacts.

(** ** The deck *)

Section Deck.

Context {U : UnicodeData}.

(** The deck is the scan padded from the bank, or cut. *)
Lemma parse_structured_content_cases (content asanas_name : pystr) :
  length (parse_structured_content content asanas_name) = 13
  /\ (length (scanned_slides content) <= 13 ->
      parse_structured_content content asanas_name =
      scanned_slides content
      ++ skipn (length (scanned_slides content))
           (get_enhanced_fallback_content asanas_name))
  /\ (13 <= length (scanned_slides content) ->
      parse_structured_content content asanas_name =
      firstn 13 (scanned_slides content)).
Proof.
  unfold parse_structured_content. split; [|split].
  - rewrite length_firstn, fill_slides_length. lia.
  - intros Hk. rewrite fill_slides_spec by (try reflexivity; assumption).
    apply firstn_all2. rewrite length_app, length_skipn.
    rewrite get_enhanced_fallback_content_length. lia.
  - intros Hk. f_equal.
    funelim (fill_slides (get_enhanced_fallback_content asanas_name)
               (scanned_slides content)); [lia|reflexivity].
Qed.

(** C1. For every raw input text and every subject name,
    [parse_structured_content] returns exactly 13 slides: a shorter scan is
    padded from the fallback bank and a longer one is cut to its first 13. *)
Theorem parse_structured_content_length (content asanas_name : pystr) :
  length (parse_structured_content content asanas_name) = 13
  /\ (length (scanned_slides content) < 13 ->
      exists padding,
        padding <> []
        /\ parse_structured_content content asanas_name =
           scanned_slides content ++ padding
        /\ incl padding (get_enhanced_fallback_content asanas_name))
  /\ (13 < length (scanned_slides content) ->
      parse_structured_content content asanas_name =
      firstn 13 (scanned_slides content)).
Proof.
  destruct (parse_structured_content_cases content asanas_name) as (Hlen & Hpad & Hcut).
  split; [exact Hlen|split].
  - intros Hk.
    exists (skipn (length (scanned_slides content))
              (get_enhanced_fallback_content asanas_name)).
    split; [|split].
    + intros Hnil. apply (f_equal (@length pystr)) in Hnil.
      rewrite length_skipn, get_enhanced_fallback_content_length in Hnil.
      cbn [length] in Hnil. lia.
    + apply Hpad. lia.
    + intros x Hx.
      rewrite <- (firstn_skipn (length (scanned_slides content))
                    (get_enhanced_fallback_content asanas_name)).
      apply in_or_app. right. exact Hx.
  - intros Hk. apply Hcut. lia.
Qed.

Lemma nth_skipn_shift (A : Type) (d : A) (l : list A) (k i : nat) :
  k <= i -> nth (i - k) (skipn k l) d = nth i l d.
Proof.
  revert l i. induction k as [|k IH]; intros l i Hk.
  - rewrite Nat.sub_0_r. reflexivity.
  - destruct i as [|i]; [lia|]. destruct l as [|x l].
    + simpl. destruct (i - k); reflexivity.
    + simpl. apply IH. lia.
Qed.

Lemma no_titles_no_slides (content : pystr) :
  Forall (fun raw => is_title_line (strip raw) = false) (split_lines content) ->
  scanned_slides content = [].
Proof.
  intros H. apply length_zero_iff_nil.
  rewrite length_scanned_slides. unfold detected_titles.
  induction H as [|raw lines Hraw _ IH]; [reflexivity|].
  cbn [map filter]. rewrite Hraw. exact IH.
Qed.

(** C6. When no line of the raw input triggers title detection, the output
    is the fallback bank's 13 entries for the subject, in the bank's order. *)
Theorem parse_without_titles_is_fallback (content asanas_name : pystr) :
  Forall (fun raw => is_title_line (strip raw) = false) (split_lines content) ->
  parse_structured_content content asanas_name =
  get_enhanced_fallback_content asanas_name.
Proof.
  intros H.
  destruct (parse_structured_content_cases content asanas_name) as (_ & Hpad & _).
  rewrite Hpad; rewrite (no_titles_no_slides content H); [reflexivity|simpl; lia].
Qed.

(** C7. With k detected titles, k < 13, the first k output entries are the
    slides finalized from the input, one per detected title in order, and
    entry i for k <= i < 13 is the fallback entry at index i mod 13. *)
Theorem parse_pads_cyclically (content asanas_name : pystr) :
  let k := length (detected_titles content) in
  k < 13 ->
  length (accumulators content) = k
  /\ map title (accumulators content) = detected_titles content
  /\ firstn k (parse_structured_content content asanas_name) =
     map format_slide_content (accumulators content)
  /\ forall i, k <= i < 13 ->
       nth i (parse_structured_content content asanas_name) [] =
       nth (i mod length (get_enhanced_fallback_content asanas_name))
         (get_enhanced_fallback_content asanas_name) [].
Proof.
  intros k Hk.
  assert (Hlen : length (scanned_slides content) = k)
    by apply length_scanned_slides.
  destruct (parse_structured_content_cases content asanas_name) as (_ & Hpad & _).
  rewrite Hpad by lia. clear Hpad.
  split; [|split; [|split]].
  - rewrite <- Hlen, scanned_slides_accumulators, length_map. reflexivity.
  - apply accumulators_titles.
  - rewrite <- scanned_slides_accumulators, <- Hlen.
    rewrite firstn_app, Nat.sub_diag, firstn_all. simpl. apply app_nil_r.
  - intros i Hi.
    rewrite get_enhanced_fallback_content_length, Nat.mod_small by lia.
    rewrite app_nth2 by lia. rewrite Hlen. apply nth_skipn_shift. lia.
Qed.

(** C10. Truncation to the 500-character budget is idempotent. *)
Theorem truncate_structured_content_idempotent (s : pystr) :
  truncate_structured_content (truncate_structured_content s 500) 500 =
  truncate_structured_content s 500.
Proof. apply truncate_within_budget, len_truncate. Qed.

(** *** The character budget *)

Ltac eval_lit_lengths :=
  repeat match goal with
         | |- context [length (lit ?s)] =>
             let n := eval vm_compute in (length (lit s)) in
             change (length (lit s)) with n
         end.

Lemma Forall_format_within_budget (slides : list slide_data) :
  Forall (fun slide => (len slide <= 500)%Z) (map format_slide_content slides).
Proof.
  apply Forall_forall. intros slide Hin.
  apply in_map_iff in Hin as (sd & <- & _). apply len_truncate.
Qed.

(** The first fallback entry is 430 characters around the upper-cased name. *)
Lemma fallback_head_length (asanas_name : pystr) :
  len (hd [] (get_enhanced_fallback_content asanas_name)) =
  (430 + len (upper asanas_name))%Z.
Proof.
  unfold get_enhanced_fallback_content, hd, len.
  rewrite !length_app. eval_lit_lengths. lia.
Qed.

Lemma fallback_tail_lengths (asanas_name : pystr) :
  Forall (fun slide => (len slide <= 429)%Z)
    (tl (get_enhanced_fallback_content asanas_name)).
Proof.
  unfold get_enhanced_fallback_content, tl.
  repeat (constructor; [vm_compute; discriminate|]). constructor.
Qed.

Lemma Forall_skipn (A : Type) (P : A -> Prop) (l : list A) (n : nat) :
  Forall P l -> Forall P (skipn n l).
Proof.
  intros H. rewrite <- (firstn_skipn n l) in H.
  apply Forall_app in H. apply H.
Qed.

(** C3, as the code has it.  Every slide of the output has at most 500
    characters exactly when a title was detected in the input or the
    upper-cased subject name has at most 70 characters: slides finalized from
    the input always fit, the fallback entries are appended as they are, and
    only the first one, which carries the name, can be longer. *)
Theorem parse_slides_within_budget (content asanas_name : pystr) :
  Forall (fun slide => (len slide <= 500)%Z) (scanned_slides content)
  /\ (Forall (fun slide => (len slide <= 500)%Z)
        (parse_structured_content content asanas_name)
      <-> detected_titles content <> [] \/ (len (upper asanas_name) <= 70)%Z).
Proof.
  assert (Hscan : Forall (fun slide => (len slide <= 500)%Z) (scanned_slides content))
    by (rewrite scanned_slides_accumulators; apply Forall_format_within_budget).
  split; [exact Hscan|].
  destruct (parse_structured_content_cases content asanas_name) as (_ & Hpad & Hcut).
  pose proof (length_scanned_slides content) as Hk.
  pose proof (fallback_head_length asanas_name) as Hhd.
  pose proof (fallback_tail_lengths asanas_name) as Htl.
  destruct (detected_titles content) as [|t ts] eqn:Hd.
  - (* nothing detected: the output is the bank *)
    apply length_zero_iff_nil in Hk. rewrite Hk in Hpad.
    rewrite Hpad by (simpl; lia). cbn [app length skipn].
    destruct (get_enhanced_fallback_content asanas_name) as [|e es] eqn:He;
      [discriminate|]. cbn [hd tl] in *.
    split.
    + intros H. inversion H; subst. right. lia.
    + intros [H|H]; [contradiction|].
      constructor; [lia|].
      eapply Forall_impl; [|exact Htl]. cbv beta. intros; lia.
  - split; [intros _; left; discriminate|intros _].
    destruct (le_lt_dec (length (scanned_slides content)) 13) as [Hle|Hgt].
    + rewrite Hpad by exact Hle. apply Forall_app. split; [exact Hscan|].
      destruct (length (scanned_slides content)) as [|n]; [discriminate|].
      destruct (get_enhanced_fallback_content asanas_name) as [|e es];
        [rewrite skipn_nil; constructor|].
      cbn [skipn tl] in *. apply Forall_skipn.
      eapply Forall_impl; [|exact Htl]. cbv beta. intros; lia.
    + rewrite Hcut by lia.
      rewrite <- (firstn_skipn 13 (scanned_slides content)) in Hscan.
      apply Forall_app in Hscan. apply Hscan.
Qed.


End Deck.

(** ** Title detection *)

Section Titles.

Context {U : UnicodeData}.

Lemma lower_char_not_isupper (line : pystr) (c : char) :
  In c line -> islower_c c || istitle_c c = true ->
  forall cased, isupper_loop cased line = false.
Proof.
  induction line as [|a line IH]; intros Hin Hc cased; [contradiction|].
  simpl. destruct (islower_c a || istitle_c a) eqn:Ea; [reflexivity|].
  destruct Hin as [->|Hin]; [congruence|]. apply IH; assumption.
Qed.

Lemma startswith_nil (s : pystr) : startswith s [] = true.
Proof. destruct s; reflexivity. Qed.

Lemma ascii_upper_char_cases (c u : char) :
  (ascii_upper_char c =? u)%N = true -> c = u \/ c = (u + 32)%N.
Proof.
  unfold ascii_upper_char. intros H. apply N.eqb_eq in H.
  destruct ((97 <=? c) && (c <=? 122))%N eqn:E; [|left; exact H].
  apply andb_true_iff in E as [E _]. apply N.leb_le in E. right. lia.
Qed.

(** A line that begins with the letters of SLIDE, not all of them in upper
    case, holds one of the letters s, l, i, d, e. *)
Lemma slide_letters_lower (line : pystr) :
  begins_with_slide_letters line = true ->
  startswith line (lit "SLIDE") = false ->
  exists c, In c line /\ In c (lit "slide").
Proof.
  unfold begins_with_slide_letters.
  change (lit "SLIDE") with [83; 76; 73; 68; 69]%N.
  change (lit "slide") with [115; 108; 105; 100; 101]%N.
  intros H Hns.
  destruct line as [|c1 [|c2 [|c3 [|c4 [|c5 rest]]]]];
    cbn [map startswith] in H;
    repeat match goal with
           | H : (_ && _)%bool = true |- _ => apply andb_true_iff in H as [? ?]
           end;
    try congruence.
  repeat match goal with
         | H : (_ =? ascii_upper_char _)%N = true |- _ =>
             rewrite N.eqb_sym in H; apply ascii_upper_char_cases in H
         end.
  repeat match goal with
         | H : _ \/ _ |- _ => destruct H as [H|H]
         end; subst;
    first [ cbn [startswith] in Hns; rewrite startswith_nil in Hns;
            vm_compute in Hns; discriminate Hns
          | exists 115%N; split; simpl; auto 10; fail
          | exists 108%N; split; simpl; auto 10; fail
          | exists 105%N; split; simpl; auto 10; fail
          | exists 100%N; split; simpl; auto 10; fail
          | exists 101%N; split; simpl; auto 10; fail ].
Qed.

(** C5, as the code has it.  The prefix test is case-sensitive.  A line
    that, stripped, begins with upper-case "SLIDE" is a title line, closes
    the slide being built and starts a new one with that line as its title.
    A line that begins with the letters of the token, at least one of them in
    lower case, is no title line (the letters s, l, i, d, e being lower-case
    characters): it finalizes no slide, starts none and is not among the
    detected titles. *)
Theorem slide_prefix_is_case_sensitive
    (slides : list pystr) (current_slide : slide_data) (raw : pystr) :
  (startswith (strip raw) (lit "SLIDE") = true ->
   is_title_line (strip raw) = true
   /\ scan_line (slides, current_slide) raw =
      ((if truthy (title current_slide)
        then slides ++ [format_slide_content current_slide]
        else slides),
       {| title := strip raw; subheading := lit ""; content := [] |})
   /\ forall content,
        In raw (split_lines content) -> In (strip raw) (detected_titles content))
  /\ (Forall (fun c => islower_c c = true) (lit "slide") ->
      begins_with_slide_letters (strip raw) = true ->
      startswith (strip raw) (lit "SLIDE") = false ->
      is_title_line (strip raw) = false
      /\ fst (scan_line (slides, current_slide) raw) = slides
      /\ title (snd (scan_line (slides, current_slide) raw)) = title current_slide
      /\ forall content, ~ In (strip raw) (detected_titles content)).
Proof.
  split.
  - intros H.
    assert (Ht : is_title_line (strip raw) = true)
      by (unfold is_title_line; rewrite H; reflexivity).
    split; [exact Ht|split].
    + unfold scan_line. rewrite Ht. reflexivity.
    + intros content Hin. unfold detected_titles.
      apply filter_In. split; [|exact Ht].
      apply in_map. exact Hin.
  - intros Hlow Hb Hns.
    assert (Ht : is_title_line (strip raw) = false).
    { unfold is_title_line. rewrite Hns. cbn [orb].
      destruct (slide_letters_lower (strip raw) Hb Hns) as (c & Hin & Hc).
      rewrite Forall_forall in Hlow.
      unfold isupper.
      rewrite (lower_char_not_isupper (strip raw) c Hin); [reflexivity|].
      rewrite (Hlow c Hc). reflexivity. }
    split; [exact Ht|].
    unfold scan_line. rewrite Ht.
    split; [|split].
    + destruct (has_subheading_marker (strip raw)); [reflexivity|].
      destruct (has_bullet_marker (strip raw)); reflexivity.
    + destruct (has_subheading_marker (strip raw)); [reflexivity|].
      destruct (has_bullet_marker (strip raw)); reflexivity.
    + intros content Hin. unfold detected_titles in Hin.
      apply filter_In in Hin as [_ Hin]. congruence.
Qed.

End Titles.

(** ** The fallback bank *)

Section Bank.

Context {U : UnicodeData}.

Lemma no_NL_check (s : pystr) :
  forallb (fun c => negb (c =? NL)%N) s = true -> no_NL s.
Proof.
  intros H Hin. rewrite forallb_forall in H. specialize (H NL Hin).
  rewrite N.eqb_refl in H. discriminate.
Qed.

Lemma no_NL_app (a b : pystr) : no_NL a -> no_NL b -> no_NL (a ++ b).
Proof. intros Ha Hb Hin. apply in_app_or in Hin as [H|H]; auto. Qed.

Lemma body_ok_sound (body : pystr) :
  body_ok body = true ->
  is_slide_body (hd [] (split_lines body)) body /\ no_NL (hd [] (split_lines body)).
Proof.
  unfold body_ok. intros H.
  pose proof (split_lines_no_NL body) as Hnl.
  pose proof (join_split body) as Hj.
  destruct (split_lines body) as [|t [|s bs]]; try discriminate.
  apply andb_true_iff in H as [H Hb]. apply andb_true_iff in H as [Hs Hl].
  apply Nat.eqb_eq in Hl.
  pose proof (Forall_inv Hnl) as Ht.
  pose proof (Forall_inv (Forall_inv_tail Hnl)) as Hsn.
  pose proof (Forall_inv_tail (Forall_inv_tail Hnl)) as Hbn.
  split; [|exact Ht].
  exists s, bs. repeat split; try assumption.
  - rewrite <- Hj at 1. cbn [hd].
    destruct bs as [|b bs]; [discriminate|]. reflexivity.
  - apply Forall_forall. intros b Hb'.
    rewrite forallb_forall in Hb. apply Hb. exact Hb'.
Qed.

Lemma is_slide_body_app (prefix title body : pystr) :
  is_slide_body title body -> is_slide_body (prefix ++ title) (prefix ++ body).
Proof.
  intros (s & bs & -> & H). exists s, bs. split; [|exact H].
  rewrite <- app_assoc. reflexivity.
Qed.

Lemma fallback_bodies_shape (asanas_name : pystr) :
  Forall (fun body =>
            exists title,
              is_slide_body title body
              /\ (no_NL (upper asanas_name) -> no_NL title))
    (get_enhanced_fallback_content asanas_name).
Proof.
  unfold get_enhanced_fallback_content.
  constructor.
  - match goal with
    | |- context [upper asanas_name ++ ?rest] =>
        destruct (body_ok_sound rest) as [Hb _]; [vm_compute; reflexivity|];
        assert (Hhd : hd [] (split_lines rest) = []) by (vm_compute; reflexivity);
        rewrite Hhd in Hb;
        apply (is_slide_body_app (lit "MASTERING " ++ upper asanas_name)) in Hb
    end.
    rewrite app_nil_r, <- app_assoc in Hb.
    eexists. split; [exact Hb|].
    intros Hn. apply no_NL_app; [|exact Hn].
    apply no_NL_check. vm_compute. reflexivity.
  - repeat (constructor;
            [match goal with
             | |- exists _, is_slide_body _ ?b /\ _ =>
                 destruct (body_ok_sound b) as [Hb Ht]; [vm_compute; reflexivity|];
                 eexists; split; [exact Hb|intros _; exact Ht]
             end|]).
    constructor.
Qed.

Lemma is_slide_body_bullet_lines (title body : pystr) :
  is_slide_body title body -> no_NL title -> length (bullet_lines body) = 6.
Proof.
  intros (s & bs & -> & Hs & _ & Hl & Hn & Hb) Ht.
  unfold bullet_lines. change (lit "\n") with [NL]. cbn [app].
  rewrite split_app_NL by exact Ht.
  rewrite split_app_NL by exact Hs.
  rewrite split_join; [|destruct bs; [discriminate|discriminate]|exact Hn].
  cbn [skipn]. rewrite filter_all by exact Hb. exact Hl.
Qed.

(** Every fallback body has six bullet lines, when the name brings no line
    break into the first title. *)
Lemma fallback_bullet_lines (asanas_name : pystr) :
  no_NL (upper asanas_name) ->
  Forall (fun body => length (bullet_lines body) = 6)
    (get_enhanced_fallback_content asanas_name).
Proof.
  intros Hn. eapply Forall_impl; [|apply fallback_bodies_shape].
  intros body (t & Hb & Ht). cbv beta.
  exact (is_slide_body_bullet_lines t body Hb (Ht Hn)).
Qed.

Lemma is_slide_body_ok (title body : pystr) :
  is_slide_body title body -> no_NL title ->
  body_ok body = true /\ length (split_lines body) = 8.
Proof.
  intros (s & bs & -> & Hs & Hm & Hl & Hn & Hb) Ht.
  unfold body_ok. change (lit "\n") with [NL]. cbn [app].
  rewrite split_app_NL by exact Ht.
  rewrite split_app_NL by exact Hs.
  rewrite split_join; [|destruct bs; [discriminate|discriminate]|exact Hn].
  cbn [length]. rewrite Hl, Hm. cbn [Nat.eqb andb].
  split; [|reflexivity].
  apply forallb_forall. rewrite Forall_forall in Hb. exact Hb.
Qed.

(** C8, as the code has it.  For every subject name the bank has exactly 13
    bodies and is a function of the name alone; each body is a title text
    followed, on lines of their own, by a subheading line carrying a marker
    and six bullet lines, and only the first title depends on the name.  When
    the upper-cased name has no line break every title is one line, so that
    every body is exactly eight lines: a title line, a subheading line with a
    marker and six bullet lines. *)
Theorem get_enhanced_fallback_content_shape (asanas_name : pystr) :
  length (get_enhanced_fallback_content asanas_name) = 13
  /\ Forall (fun body =>
              exists title,
                is_slide_body title body
                /\ (no_NL (upper asanas_name) -> no_NL title))
       (get_enhanced_fallback_content asanas_name)
  /\ (exists body,
        hd [] (get_enhanced_fallback_content asanas_name) =
        lit "MASTERING " ++ upper asanas_name ++ body)
  /\ (forall other_name,
        tl (get_enhanced_fallback_content other_name) =
        tl (get_enhanced_fallback_content asanas_name))
  /\ (forall same_name,
        same_name = asanas_name ->
        get_enhanced_fallback_content same_name =
        get_enhanced_fallback_content asanas_name)
  /\ (no_NL (upper asanas_name) ->
      Forall (fun body =>
                body_ok body = true
                /\ length (split_lines body) = 8
                /\ length (bullet_lines body) = 6)
        (get_enhanced_fallback_content asanas_name)).
Proof.
  split; [reflexivity|]. split; [|split; [|split; [|split]]].
  - apply fallback_bodies_shape.
  - unfold get_enhanced_fallback_content. cbn [hd]. eexists. reflexivity.
  - intros other_name. reflexivity.
  - intros same_name ->. reflexivity.
  - intros Hn. eapply Forall_impl; [|apply fallback_bodies_shape].
    intros body (t & Hb & Ht). cbv beta.
    destruct (is_slide_body_ok t body Hb (Ht Hn)) as [H1 H2].
    split; [exact H1|split; [exact H2|]].
    exact (is_slide_body_bullet_lines t body Hb (Ht Hn)).
Qed.

End Bank.

(** ** The export path against the scan *)

Section ExportPath.

Context {U : UnicodeData}.

Lemma has_subheading_marker_truthy (line : pystr) :
  has_subheading_marker line = true -> truthy line = true.
Proof. destruct line; [vm_compute; discriminate|reflexivity]. Qed.

Lemma has_bullet_marker_truthy (line : pystr) :
  has_bullet_marker line = true -> truthy line = true.
Proof. destruct line; [vm_compute; discriminate|reflexivity]. Qed.

(** On a stripped line that is no title, both loops take the same branch. *)
Lemma acc_line_export_line
    (done : list slide_data) (t s : pystr) (bs : list pystr) (line : pystr) :
  strip line = line ->
  is_title_line line = false ->
  acc_line (done, {| title := t; subheading := s; content := bs |}) line =
  (done, {| title := t;
            subheading := fst (export_line (s, bs) line);
            content := snd (export_line (s, bs) line) |}).
Proof.
  intros Hs Ht. unfold acc_line, export_line. rewrite Hs, Ht. cbn [title subheading content].
  destruct (has_subheading_marker line) eqn:Em.
  - rewrite (has_subheading_marker_truthy _ Em). reflexivity.
  - rewrite andb_false_r.
    destruct (has_bullet_marker line) eqn:Eb.
    + rewrite (has_bullet_marker_truthy _ Eb). reflexivity.
    + rewrite andb_false_r. reflexivity.
Qed.

Lemma acc_fold_export_fold (lines : list pystr) :
  Forall (fun line => strip line = line) lines ->
  Forall (fun line => is_title_line line = false) lines ->
  forall done t s bs,
    fold_left acc_line lines (done, {| title := t; subheading := s; content := bs |}) =
    (done, {| title := t;
              subheading := fst (fold_left export_line lines (s, bs));
              content := snd (fold_left export_line lines (s, bs)) |}).
Proof.
  induction lines as [|line lines IH]; intros Hs Ht done t s bs; [reflexivity|].
  cbn [fold_left].
  rewrite (acc_line_export_line _ _ _ _ _ (Forall_inv Hs) (Forall_inv Ht)).
  destruct (export_line (s, bs) line) as [s' bs'].
  apply IH; [exact (Forall_inv_tail Hs)|exact (Forall_inv_tail Ht)].
Qed.

(** C9, as the code has it.  The export path takes the first line as the
    title and classifies the other lines as they are; the scan strips every
    line and tests it for a title first.  On a content string whose lines
    carry no surrounding white space, whose first line is a title line and
    whose other lines are not, both recover the same title, subheading and
    bullets. *)
Theorem export_reparse_agrees_with_scan (i : nat) (content : pystr) :
  Forall (fun line => strip line = line) (split_lines content) ->
  is_title_line (hd [] (split_lines content)) = true ->
  Forall (fun line => is_title_line line = false) (tl (split_lines content)) ->
  normalizer_reading content = Some (export_reparse i content).
Proof.
  intros Hs Hh Ht.
  unfold normalizer_reading, accumulators, export_reparse.
  destruct (split_lines content) as [|t rest]; [discriminate|].
  cbn [hd tl] in *. cbn [fold_left].
  assert (Hacc : acc_line ([], empty_slide) t =
                 ([], {| title := t; subheading := lit ""; content := [] |})).
  { unfold acc_line. rewrite (Forall_inv Hs), Hh. reflexivity. }
  rewrite Hacc.
  rewrite (acc_fold_export_fold rest (Forall_inv_tail Hs) Ht).
  cbn [title]. rewrite (is_title_line_truthy _ Hh).
  destruct (fold_left export_line rest (lit "", [])) as [s bs]. reflexivity.
Qed.

End ExportPath.

(** ** Bullets *)

Section Bullets.

Context {U : UnicodeData}.

Lemma in_lstrip (x : char) (s : pystr) : In x (lstrip s) -> In x s.
Proof.
  induction s as [|c r IH]; simpl; [tauto|].
  destruct (isspace_c c); [intros H; right; exact (IH H)|intros H; exact H].
Qed.

Lemma in_strip (x : char) (s : pystr) : In x (strip s) -> In x s.
Proof.
  unfold strip. intros H.
  apply in_rev, in_lstrip, in_rev, in_lstrip in H. exact H.
Qed.

Lemma no_NL_strip (s : pystr) : no_NL s -> no_NL (strip s).
Proof. intros H Hin. apply H, in_strip, Hin. Qed.

Lemma lstrip_head (s : pystr) (c : char) (r : pystr) :
  lstrip s = c :: r -> isspace_c c = false.
Proof.
  induction s as [|a s IH]; simpl; [discriminate|].
  destruct (isspace_c a) eqn:E; [exact IH|].
  intros H. injection H as -> _. exact E.
Qed.

Lemma lstrip_suffix (s : pystr) : exists p, s = p ++ lstrip s.
Proof.
  induction s as [|a s [p IH]]; [exists []; reflexivity|].
  simpl. destruct (isspace_c a).
  - exists (a :: p). simpl. f_equal. exact IH.
  - exists []. reflexivity.
Qed.

(** A stripped string does not begin with white space. *)
Lemma strip_head (s : pystr) (c : char) (r : pystr) :
  strip s = c :: r -> isspace_c c = false.
Proof.
  unfold strip. intros H.
  destruct (lstrip_suffix (rev (lstrip s))) as [p Hp].
  apply (f_equal (@rev char)) in Hp.
  rewrite rev_involutive, rev_app_distr, H in Hp.
  simpl in Hp. apply lstrip_head in Hp. exact Hp.
Qed.

Lemma lstrip_snoc (l : pystr) (c : char) :
  isspace_c c = false -> lstrip (l ++ [c]) <> [].
Proof.
  intros Hc. induction l as [|a l IH]; simpl.
  - rewrite Hc. discriminate.
  - destruct (isspace_c a); [exact IH|discriminate].
Qed.

(** A string that begins with a character that is no white space is not
    blank. *)
Lemma strip_not_blank (c : char) (r : pystr) :
  isspace_c c = false -> strip (c :: r) <> [].
Proof.
  intros Hc. unfold strip. simpl lstrip. rewrite Hc.
  simpl rev at 2. intros H.
  apply (f_equal (@rev char)) in H. rewrite rev_involutive in H.
  exact (lstrip_snoc (rev r) c Hc H).
Qed.

(** *** What the scan accumulates *)

Lemma title_line_ok (raw : pystr) :
  no_NL raw -> is_title_line (strip raw) = true -> title_ok (strip raw).
Proof.
  intros Hn Ht. split; [|apply no_NL_strip, Hn].
  apply is_title_line_truthy in Ht.
  destruct (strip raw) as [|c r] eqn:E; [discriminate|].
  exists c, r. split; [reflexivity|]. exact (strip_head raw c r E).
Qed.

Lemma acc_line_invariant (st : list slide_data * slide_data) (raw : pystr) :
  no_NL raw -> scan_invariant st -> scan_invariant (acc_line st raw).
Proof.
  destruct st as [done cur]. intros Hn (Hd & (Hs & Hc & Hb) & Ht).
  cbn [fst snd] in *. unfold acc_line.
  destruct (is_title_line (strip raw)) eqn:Et.
  - split; [|split]; cbn [fst snd title subheading content].
    + destruct (truthy (title cur)) eqn:E; [|exact Hd].
      apply Forall_app. split; [exact Hd|].
      constructor; [|constructor]. split; [exact (Ht eq_refl)|].
      repeat split; assumption.
    + repeat split; try constructor. intros [].
    + intros _. apply title_line_ok; assumption.
  - destruct (has_subheading_marker (strip raw)).
    + split; [exact Hd|split]; cbn [fst snd title subheading content].
      * repeat split; try assumption. apply no_NL_strip, Hn.
      * exact Ht.
    + destruct (has_bullet_marker (strip raw)) eqn:Eb.
      * split; [exact Hd|split]; cbn [fst snd title subheading content].
        -- repeat split; try assumption.
           ++ apply Forall_app. split; [exact Hc|].
              constructor; [apply no_NL_strip, Hn|constructor].
           ++ apply Forall_app. split; [exact Hb|].
              constructor; [exact Eb|constructor].
        -- exact Ht.
      * split; [exact Hd|split; [repeat split; assumption|exact Ht]].
Qed.

Lemma acc_fold_invariant (lines : list pystr) :
  Forall no_NL lines ->
  forall st, scan_invariant st -> scan_invariant (fold_left acc_line lines st).
Proof.
  induction 1 as [|raw lines Hraw _ IH]; intros st Hst; [exact Hst|].
  cbn [fold_left]. apply IH, acc_line_invariant; assumption.
Qed.

Lemma accumulators_well_formed (text : pystr) :
  Forall well_formed_acc (accumulators text).
Proof.
  unfold accumulators.
  assert (H : scan_invariant (fold_left acc_line (split_lines text) ([], empty_slide))).
  { apply acc_fold_invariant; [apply split_lines_no_NL|].
    split; [constructor|split].
    - repeat split; try constructor. intros [].
    - discriminate. }
  destruct (fold_left acc_line (split_lines text) ([], empty_slide)) as [done cur].
  destruct H as (Hd & Hf & Ht). cbn [fst snd] in *.
  destruct (truthy (title cur)) eqn:E; [|exact Hd].
  apply Forall_app. split; [exact Hd|].
  constructor; [|constructor]. split; [exact (Ht eq_refl)|exact Hf].
Qed.

(** *** What [format_slide_content] renders *)

Lemma Forall_firstn (A : Type) (P : A -> Prop) (l : list A) (n : nat) :
  Forall P l -> Forall P (firstn n l).
Proof.
  intros H. rewrite <- (firstn_skipn n l) in H.
  apply Forall_app in H. apply H.
Qed.

Lemma rendered_bullets_spec (slide : slide_data) :
  rendered_bullets slide =
  firstn 6 (content slide ++ repeat filler_bullet (5 - length (content slide)))
  /\ 5 <= length (rendered_bullets slide) <= 6.
Proof.
  unfold rendered_bullets, pad_bullets. rewrite pad_to_five_spec.
  split; [reflexivity|].
  rewrite length_firstn, length_app, repeat_length. lia.
Qed.

Lemma rendered_bullets_ok (slide : slide_data) :
  fields_ok slide ->
  Forall no_NL (rendered_bullets slide)
  /\ Forall (fun bullet => has_bullet_marker bullet = true) (rendered_bullets slide).
Proof.
  intros (_ & Hn & Hb).
  destruct (rendered_bullets_spec slide) as [-> _].
  split; apply Forall_firstn, Forall_app; split; try assumption;
    apply Forall_forall; intros x Hx; apply repeat_spec in Hx; subst x.
  - apply no_NL_check. vm_compute. reflexivity.
  - vm_compute. reflexivity.
Qed.

Lemma split_lines_full_content (slide : slide_data) :
  well_formed_acc slide ->
  split_lines (full_content slide) =
  title slide :: subheading slide :: rendered_bullets slide.
Proof.
  intros ((_ & Ht) & Hf).
  destruct (rendered_bullets_ok slide Hf) as [Hn _].
  destruct Hf as (Hs & _).
  unfold full_content. change (lit "\n") with [NL]. cbn [app].
  rewrite split_app_NL by exact Ht.
  rewrite split_app_NL by exact Hs.
  fold (rendered_bullets slide).
  rewrite split_join; [reflexivity| |exact Hn].
  pose proof (rendered_bullets_spec slide) as [_ Hl].
  destruct (rendered_bullets slide); [simpl in Hl; lia|discriminate].
Qed.

Lemma bullet_lines_of_prefix (slide : slide_data) (k : nat) :
  well_formed_acc slide ->
  firstn k (split_lines (full_content slide)) <> [] ->
  bullet_lines (join_lines (firstn k (split_lines (full_content slide)))) =
  firstn (k - 2) (rendered_bullets slide).
Proof.
  intros Hw Hne. unfold bullet_lines.
  rewrite split_join;
    [|exact Hne|apply Forall_firstn, split_lines_no_NL].
  rewrite split_lines_full_content by exact Hw.
  rewrite skipn_firstn_comm. cbn [skipn].
  apply filter_all, Forall_firstn, rendered_bullets_ok, Hw.
Qed.

Lemma bullet_lines_full_content (slide : slide_data) :
  well_formed_acc slide ->
  bullet_lines (full_content slide) = rendered_bullets slide.
Proof.
  intros Hw. unfold bullet_lines.
  rewrite split_lines_full_content by exact Hw. cbn [skipn].
  apply filter_all, rendered_bullets_ok, Hw.
Qed.

(** When no line is kept the title alone is over the budget, and the slide
    is its first 497 characters and "...". *)
Lemma bullet_lines_of_cut_title (slide : slide_data) :
  well_formed_acc slide ->
  truncate_loop 500 (split_lines (full_content slide)) [] 0 = [] ->
  bullet_lines (firstn 497 (full_content slide) ++ lit "...") = [].
Proof.
  intros Hw Hk.
  rewrite split_lines_full_content in Hk by exact Hw.
  rewrite truncate_loop_cons in Hk.
  destruct (0 + len (title slide) <? 500)%Z eqn:E.
  - destruct (truncate_loop_prefix 500 (subheading slide :: rendered_bullets slide)
                ([] ++ [title slide]) (0 + len (title slide) + 1)%Z) as [k Hp].
    rewrite Hp in Hk. discriminate.
  - apply Z.ltb_ge in E. unfold len in E.
    unfold full_content. rewrite firstn_app.
    replace (497 - length (title slide)) with 0 by lia.
    cbn [firstn]. rewrite app_nil_r.
    unfold bullet_lines. rewrite split_no_NL; [reflexivity|].
    destruct Hw as ((_ & Ht) & _).
    apply no_NL_app.
    + intros Hin. apply Ht.
      rewrite <- (firstn_skipn 497 (title slide)). apply in_or_app. left. exact Hin.
    + apply no_NL_check. vm_compute. reflexivity.
Qed.

Lemma format_slide_content_bullets (slide : slide_data) :
  well_formed_acc slide ->
  (exists k, bullet_lines (format_slide_content slide) =
             firstn k (rendered_bullets slide))
  /\ ((len (full_content slide) <= 500)%Z ->
      bullet_lines (format_slide_content slide) = rendered_bullets slide).
Proof.
  intros Hw. split.
  - unfold format_slide_content, truncate_structured_content.
    destruct (len (full_content slide) >? 500)%Z.
    + destruct (truncate_loop_prefix 500 (split_lines (full_content slide)) [] 0%Z)
        as [k Hk].
      cbn [app] in Hk. cbv zeta.
      destruct (truthy (strip (join_lines
                 (truncate_loop 500 (split_lines (full_content slide)) [] 0)))) eqn:E.
      * exists (k - 2). rewrite Hk. apply bullet_lines_of_prefix; [exact Hw|].
        intros Hnil. rewrite Hk, Hnil in E. discriminate.
      * exists 0. rewrite slice_to_497.
        apply bullet_lines_of_cut_title; [exact Hw|].
        rewrite split_lines_full_content in * by exact Hw.
        destruct k as [|k]; [exact Hk|].
        rewrite Hk in E. cbn [firstn] in E.
        destruct Hw as (((c & r & Ht & Hc) & _) & _).
        exfalso. revert E.
        destruct (firstn k (subheading slide :: rendered_bullets slide)) as [|x xs].
        -- cbn [join_lines]. rewrite Ht.
           pose proof (strip_not_blank c r Hc) as Hnb.
           destruct (strip (c :: r)); [contradiction|discriminate].
        -- rewrite join_lines_cons by discriminate. rewrite Ht.
           pose proof (strip_not_blank c (r ++ NL :: join_lines (x :: xs)) Hc) as Hnb.
           cbn [app]. destruct (strip _); [contradiction|discriminate].
    + exists 6. pose proof (rendered_bullets_spec slide) as [_ Hl].
      rewrite firstn_all2 by lia. apply bullet_lines_full_content, Hw.
  - intros Hlen. unfold format_slide_content.
    rewrite truncate_within_budget by exact Hlen.
    apply bullet_lines_full_content, Hw.
Qed.

Lemma scanned_at_most_six_bullets (text : pystr) :
  Forall (fun slide => length (bullet_lines slide) <= 6) (scanned_slides text).
Proof.
  rewrite scanned_slides_accumulators. apply Forall_map.
  eapply Forall_impl; [|apply accumulators_well_formed].
  intros slide Hw.
  destruct (format_slide_content_bullets slide Hw) as [[k Hk] _].
  destruct (rendered_bullets_spec slide) as [_ Hl].
  rewrite Hk, length_firstn. lia.
Qed.

Lemma parse_at_most_six_bullets (text asanas_name : pystr) :
  no_NL (upper asanas_name) ->
  Forall (fun slide => length (bullet_lines slide) <= 6)
    (parse_structured_content text asanas_name).
Proof.
  intros Hn.
  pose proof (scanned_at_most_six_bullets text) as Hs.
  destruct (parse_structured_content_cases text asanas_name) as (_ & Hpad & Hcut).
  destruct (le_lt_dec (length (scanned_slides text)) 13) as [Hle|Hgt].
  - rewrite Hpad by exact Hle. apply Forall_app. split; [exact Hs|].
    apply Forall_skipn.
    eapply Forall_impl; [|apply fallback_bullet_lines, Hn].
    cbv beta. intros body Hb. lia.
  - rewrite Hcut by lia. apply Forall_firstn, Hs.
Qed.

(** C2, as the code has it.  Every slide of the scan is the rendering of an
    accumulator whose bullets are padded to five with the filler and cut to
    the first six before they are joined; the rendered text keeps an initial
    segment of these five to six bullet lines, all of them when the joined
    text is within the 500-character budget.  The fallback bodies that pad
    the deck have six bullet lines each, and no slide of the deck has more
    than six, when the upper-cased subject name has no line break. *)
Theorem scanned_slides_bullet_lines (text asanas_name : pystr) :
  (no_NL (upper asanas_name) ->
   Forall (fun body => length (bullet_lines body) = 6)
     (get_enhanced_fallback_content asanas_name)
   /\ Forall (fun slide => length (bullet_lines slide) <= 6)
        (parse_structured_content text asanas_name))
  /\ scanned_slides text = map format_slide_content (accumulators text)
  /\ Forall (fun slide =>
              rendered_bullets slide =
              firstn 6 (content slide
                        ++ repeat filler_bullet (5 - length (content slide)))
              /\ 5 <= length (rendered_bullets slide) <= 6
              /\ bullet_lines (full_content slide) = rendered_bullets slide
              /\ (exists k, bullet_lines (format_slide_content slide) =
                            firstn k (rendered_bullets slide))
              /\ length (bullet_lines (format_slide_content slide)) <= 6
              /\ ((len (full_content slide) <= 500)%Z ->
                  bullet_lines (format_slide_content slide) = rendered_bullets slide))
       (accumulators text).
Proof.
  split; [intros Hn; split;
          [apply fallback_bullet_lines, Hn|apply parse_at_most_six_bullets, Hn]|].
  split; [apply scanned_slides_accumulators|].
  eapply Forall_impl; [|apply accumulators_well_formed].
  intros slide Hw.
  destruct (rendered_bullets_spec slide) as [Hspec Hlen].
  destruct (format_slide_content_bullets slide Hw) as [[k Hk] Hfit].
  repeat split; try assumption; try lia.
  - apply bullet_lines_full_content, Hw.
  - exists k. exact Hk.
  - rewrite Hk, length_firstn. lia.
Qed.

End Bullets.

(** * Further properties of the pipeline *)

(** ** The budget, for any [max_chars] *)

Lemma app_firstn_cons (tr rest : list pystr) (line : pystr) (j : nat) :
  tr ++ firstn (S j) (line :: rest) = (tr ++ [line]) ++ firstn j rest.
Proof. rewrite <- app_assoc. reflexivity. Qed.

(** The loop stops at the first line that would bring the joined text to
    [max_chars] characters or more. *)
Lemma truncate_loop_longest (max_chars : Z) (lines : list pystr) :
  forall truncated total,
    total = total_len truncated ->
    exists k,
      truncate_loop max_chars lines truncated total = truncated ++ firstn k lines
      /\ k <= length lines
      /\ (forall j, 1 <= j <= k ->
            (total_len (truncated ++ firstn j lines) <= max_chars)%Z)
      /\ (k < length lines ->
            (max_chars < total_len (truncated ++ firstn (S k) lines))%Z).
Proof.
  induction lines as [|line rest IH]; intros truncated total Ht.
  - exists 0. simpl. rewrite app_nil_r. repeat split; try lia.
  - rewrite truncate_loop_cons.
    destruct (total + len line <? max_chars)%Z eqn:E.
    + apply Z.ltb_lt in E.
      destruct (IH (truncated ++ [line]) (total + len line + 1)%Z) as (k & Hk & Hle & Hin & Hout).
      { rewrite total_len_app. simpl. lia. }
      exists (S k). split; [|split; [|split]].
      * rewrite Hk. symmetry. apply app_firstn_cons.
      * simpl. lia.
      * intros j Hj. destruct j as [|j]; [lia|].
        rewrite app_firstn_cons.
        destruct j as [|j].
        -- cbn [firstn]. rewrite app_nil_r, total_len_app. simpl. lia.
        -- apply Hin. lia.
      * intros Hlt. rewrite app_firstn_cons. apply Hout. simpl in Hlt. lia.
    + apply Z.ltb_ge in E.
      exists 0. cbn [firstn]. rewrite app_nil_r.
      split; [reflexivity|split; [simpl; lia|split]].
      * intros j Hj. lia.
      * intros _. rewrite total_len_app. simpl. lia.
Qed.

Section BudgetFacts.

Context {U : UnicodeData}.

(** X1. For every budget of at least 3 characters the result of
    [truncate_structured_content] has at most [max_chars] characters, and a
    text within the budget is returned as it is. *)
Theorem truncate_structured_content_fits (s : pystr) (max_chars : Z) :
  (3 <= max_chars)%Z ->
  (len (truncate_structured_content s max_chars) <= max_chars)%Z
  /\ ((len s <= max_chars)%Z -> truncate_structured_content s max_chars = s).
Proof.
  intros Hm. unfold truncate_structured_content.
  destruct (len s >? max_chars)%Z eqn:E.
  - apply Z.gtb_lt in E. split; [|lia].
    destruct (truthy _).
    + apply len_join_truncate_loop. lia.
    + rewrite len_app. unfold slice_to.
      destruct (0 <=? max_chars - 3)%Z eqn:E0; [|apply Z.leb_gt in E0; lia].
      unfold len in *. rewrite length_firstn.
      change (length (lit "...")) with 3. lia.
  - rewrite Z.gtb_ltb in E. apply Z.ltb_ge in E. split; [exact E|reflexivity].
Qed.

(** X2. When the text is over the budget, the lines kept are the longest
    initial segment of its lines whose joined text is shorter than 500
    characters: every shorter segment is shorter than 500 too, and one more
    line gives 500 characters or more. *)
Theorem truncate_loop_keeps_longest_prefix (s : pystr) :
  (len s > 500)%Z ->
  exists k,
    truncate_loop 500 (split_lines s) [] 0 = firstn k (split_lines s)
    /\ k < length (split_lines s)
    /\ (forall j, 1 <= j <= k ->
          (len (join_lines (firstn j (split_lines s))) < 500)%Z)
    /\ (500 <= len (join_lines (firstn (S k) (split_lines s))))%Z.
Proof.
  intros Hs.
  destruct (truncate_loop_longest 500 (split_lines s) [] 0%Z eq_refl)
    as (k & Hk & Hle & Hin & Hout).
  cbn [app] in *.
  assert (Hlen : forall j, 1 <= j ->
            len (join_lines (firstn j (split_lines s))) =
            (total_len (firstn j (split_lines s)) - 1)%Z).
  { intros j Hj. apply len_join.
    pose proof (split_lines_not_nil s).
    destruct (split_lines s); [contradiction|].
    destruct j; [lia|discriminate]. }
  assert (Hk' : k < length (split_lines s)).
  { destruct (Nat.eq_dec k (length (split_lines s))) as [->|]; [|lia].
    exfalso.
    assert (1 <= length (split_lines s)).
    { pose proof (split_lines_not_nil s). destruct (split_lines s); [contradiction|simpl; lia]. }
    specialize (Hin (length (split_lines s)) ltac:(lia)).
    rewrite firstn_all in Hin.
    pose proof (Hlen (length (split_lines s)) ltac:(lia)) as Hl.
    rewrite firstn_all, join_split in Hl. lia. }
  exists k. split; [exact Hk|split; [exact Hk'|split]].
  - intros j Hj. rewrite Hlen by lia. specialize (Hin j Hj). lia.
  - rewrite Hlen by lia. specialize (Hout Hk'). lia.
Qed.

End BudgetFacts.

(** ** What the scan reads *)

Section ScanReads.

Context {U : UnicodeData}.

Lemma scanned_slides_final (text : pystr) :
  scanned_slides text =
  final_slides (fold_left scan_line (split_lines text) ([], empty_slide)).
Proof.
  unfold scanned_slides, final_slides.
  destruct (fold_left scan_line (split_lines text) ([], empty_slide)). reflexivity.
Qed.

Lemma scan_line_stripped (st : list pystr * slide_data) (raw : pystr) :
  scan_line st raw = scan_stripped st (strip raw).
Proof. destruct st. reflexivity. Qed.

Lemma scan_stripped_unclassified (st : list pystr * slide_data) (line : pystr) :
  is_classified line = false -> scan_stripped st line = st.
Proof.
  unfold is_classified. intros H.
  apply orb_false_iff in H as [H Hb]. apply orb_false_iff in H as [Ht Hs].
  destruct st. unfold scan_stripped. rewrite Ht, Hs, Hb. reflexivity.
Qed.

Lemma fold_scan_classified (lines : list pystr) :
  forall st,
    fold_left scan_line lines st =
    fold_left scan_stripped (filter is_classified (map strip lines)) st.
Proof.
  induction lines as [|raw lines IH]; intros st; [reflexivity|].
  cbn [fold_left map filter]. rewrite scan_line_stripped.
  destruct (is_classified (strip raw)) eqn:E.
  - cbn [fold_left]. apply IH.
  - rewrite (scan_stripped_unclassified _ _ E). apply IH.
Qed.

Lemma fold_scan_from_first_title (lines : list pystr) :
  forall current_slide,
    title current_slide = [] ->
    final_slides (fold_left scan_stripped lines ([], current_slide)) =
    final_slides (fold_left scan_stripped (from_first_title lines) ([], empty_slide)).
Proof.
  induction lines as [|line lines IH]; intros cur Hc.
  - unfold final_slides. simpl. rewrite Hc. reflexivity.
  - cbn [from_first_title fold_left].
    destruct (is_title_line line) eqn:Et.
    + cbn [fold_left].
      assert (Hs : scan_stripped ([], cur) line = scan_stripped ([], empty_slide) line)
        by (unfold scan_stripped; rewrite Et, Hc; reflexivity).
      rewrite Hs. reflexivity.
    + assert (Hn : exists cur', scan_stripped ([], cur) line = ([], cur')
                                /\ title cur' = []).
      { unfold scan_stripped. rewrite Et.
        destruct (has_subheading_marker line); [eexists; split; [reflexivity|exact Hc]|].
        destruct (has_bullet_marker line); eexists; split; try reflexivity; exact Hc. }
      destruct Hn as (cur' & -> & Hc'). apply IH, Hc'.
Qed.

Lemma scanned_slides_significant (text : pystr) :
  scanned_slides text =
  final_slides (fold_left scan_stripped (significant_lines text) ([], empty_slide)).
Proof.
  rewrite scanned_slides_final, fold_scan_classified.
  apply fold_scan_from_first_title. reflexivity.
Qed.

(** X3. The deck depends on the raw text only through its significant
    lines: white space around a line, blank lines, lines that are neither
    title nor subheading nor bullet, and everything before the first title
    line change nothing. *)
Theorem parse_structured_content_reads_significant_lines
    (text1 text2 asanas_name : pystr) :
  significant_lines text1 = significant_lines text2 ->
  parse_structured_content text1 asanas_name =
  parse_structured_content text2 asanas_name.
Proof.
  intros H. unfold parse_structured_content.
  rewrite !scanned_slides_significant, H. reflexivity.
Qed.

(** *** The bullets of the accumulators *)

Lemma acc_line_bullets (done : list slide_data) (current_slide : slide_data) (raw : pystr) :
  truthy (title current_slide) = true ->
  truthy (title (snd (acc_line (done, current_slide) raw))) = true
  /\ concat (map content (fst (acc_line (done, current_slide) raw)))
     ++ content (snd (acc_line (done, current_slide) raw)) =
     concat (map content done) ++ content current_slide
     ++ (if is_bullet_line (strip raw) then [strip raw] else []).
Proof.
  intros Hc. unfold acc_line, is_bullet_line.
  destruct (is_title_line (strip raw)) eqn:Et.
  - rewrite Hc. cbn [fst snd title content negb andb].
    split; [exact (is_title_line_truthy _ Et)|].
    rewrite map_app, concat_app. simpl. rewrite !app_nil_r. reflexivity.
  - cbn [negb andb].
    destruct (has_subheading_marker (strip raw)); cbn [fst snd title content negb andb].
    + split; [exact Hc|]. rewrite app_nil_r. reflexivity.
    + destruct (has_bullet_marker (strip raw)); cbn [fst snd title content].
      * split; [exact Hc|reflexivity].
      * split; [exact Hc|]. rewrite app_nil_r. reflexivity.
Qed.

Lemma acc_fold_bullets (lines : list pystr) :
  forall done current_slide,
    truthy (title current_slide) = true ->
    truthy (title (snd (fold_left acc_line lines (done, current_slide)))) = true
    /\ concat (map content (fst (fold_left acc_line lines (done, current_slide))))
       ++ content (snd (fold_left acc_line lines (done, current_slide))) =
       concat (map content done) ++ content current_slide
       ++ filter is_bullet_line (map strip lines).
Proof.
  induction lines as [|raw lines IH]; intros done cur Hc.
  - simpl. rewrite app_nil_r. split; [exact Hc|reflexivity].
  - cbn [fold_left map filter].
    destruct (acc_line_bullets done cur raw Hc) as [H1 H2].
    destruct (acc_line (done, cur) raw) as [done' cur']. cbn [fst snd] in *.
    destruct (IH done' cur' H1) as [H3 H4].
    split; [exact H3|]. rewrite H4.
    rewrite app_assoc, H2, <- !app_assoc.
    destruct (is_bullet_line (strip raw)); reflexivity.
Qed.

Lemma acc_fold_bullets_from_first_title (lines : list pystr) :
  forall current_slide,
    title current_slide = [] ->
    concat (map content
              (if truthy (title (snd (fold_left acc_line lines ([], current_slide))))
               then fst (fold_left acc_line lines ([], current_slide))
                    ++ [snd (fold_left acc_line lines ([], current_slide))]
               else fst (fold_left acc_line lines ([], current_slide)))) =
    filter is_bullet_line (from_first_title (map strip lines)).
Proof.
  induction lines as [|raw lines IH]; intros cur Hc.
  - simpl. rewrite Hc. reflexivity.
  - cbn [fold_left map from_first_title].
    destruct (is_title_line (strip raw)) eqn:Et.
    + assert (Hs : acc_line ([], cur) raw =
                   ([], {| title := strip raw; subheading := lit ""; content := [] |}))
        by (unfold acc_line; rewrite Et, Hc; reflexivity).
      rewrite Hs.
      destruct (acc_fold_bullets lines []
                  {| title := strip raw; subheading := lit ""; content := [] |}
                  (is_title_line_truthy _ Et)) as [H1 H2].
      rewrite H1, map_app, concat_app. cbn [map concat].
      rewrite app_nil_r, H2. cbn [filter map concat content app].
      unfold is_bullet_line at 2. rewrite Et. reflexivity.
    + assert (Hn : exists cur', acc_line ([], cur) raw = ([], cur') /\ title cur' = []).
      { unfold acc_line. rewrite Et.
        destruct (has_subheading_marker (strip raw));
          [eexists; split; [reflexivity|exact Hc]|].
        destruct (has_bullet_marker (strip raw));
          eexists; split; try reflexivity; exact Hc. }
      destruct Hn as (cur' & -> & Hc'). apply IH, Hc'.
Qed.

(** X4. The scan keeps every bullet line that follows the first title, as
    it is once stripped and in the order of the input: the bullets of the
    accumulators, one slide after the other, are the stripped lines from the
    first title on that are no title, carry no subheading marker and start
    with a bullet marker. *)
Theorem accumulators_keep_bullets_verbatim (text : pystr) :
  concat (map content (accumulators text)) =
  filter is_bullet_line (from_first_title (map strip (split_lines text))).
Proof.
  unfold accumulators.
  rewrite <- (acc_fold_bullets_from_first_title (split_lines text) empty_slide eq_refl).
  destruct (fold_left acc_line (split_lines text) ([], empty_slide)). reflexivity.
Qed.

End ScanReads.

(** ** What a rendered slide keeps *)

Section Rendered.

Context {U : UnicodeData}.

Lemma len_full_content (slide : slide_data) :
  (len (title slide) + 2 <= len (full_content slide))%Z.
Proof.
  unfold full_content. rewrite !len_app.
  change (len (lit "\n")) with 1%Z.
  pose proof (len_nonneg (subheading slide)).
  pose proof (len_nonneg (join_lines (firstn 6 (pad_bullets (content slide))))).
  lia.
Qed.

Lemma join_not_blank (line : pystr) (rest : list pystr) :
  starts_unspaced line -> strip (join_lines (line :: rest)) <> [].
Proof.
  intros (c & r & -> & Hc). destruct rest as [|x xs].
  - apply strip_not_blank, Hc.
  - rewrite join_lines_cons by discriminate.
    apply (strip_not_blank c (r ++ NL :: join_lines (x :: xs)) Hc).
Qed.

Lemma format_slide_content_title (slide : slide_data) :
  well_formed_acc slide ->
  ((len (title slide) < 500)%Z ->
   hd [] (split_lines (format_slide_content slide)) = title slide)
  /\ ((500 <= len (title slide))%Z ->
      format_slide_content slide = firstn 497 (title slide) ++ lit "...").
Proof.
  intros Hw.
  pose proof (split_lines_full_content slide Hw) as Hl.
  pose proof (len_full_content slide) as Hf.
  pose proof (split_lines_no_NL (full_content slide)) as Hn.
  destruct Hw as ((Ht & Htn) & _).
  unfold format_slide_content, truncate_structured_content.
  destruct (len (full_content slide) >? 500)%Z eqn:E.
  - rewrite Hl in *. rewrite truncate_loop_cons.
    destruct (0 + len (title slide) <? 500)%Z eqn:E1.
    + apply Z.ltb_lt in E1. split; [intros _|lia].
      destruct (truncate_loop_prefix 500 (subheading slide :: rendered_bullets slide)
                  ([] ++ [title slide]) (0 + len (title slide) + 1)%Z) as [k Hk].
      rewrite Hk. cbn [app].
      pose proof (join_not_blank (title slide)
                    (firstn k (subheading slide :: rendered_bullets slide)) Ht) as Hb.
      destruct (strip (join_lines (title slide
                 :: firstn k (subheading slide :: rendered_bullets slide))));
        [contradiction|].
      cbn [truthy is_empty negb].
      rewrite split_join; [reflexivity|discriminate|].
      constructor; [exact Htn|].
      apply Forall_firstn. exact (Forall_inv_tail Hn).
    + apply Z.ltb_ge in E1. split; [lia|intros _].
      cbn [join_lines]. 
      assert (Hs : strip [] = []) by reflexivity.
      rewrite Hs. cbn [truthy is_empty negb].
      rewrite slice_to_497. f_equal.
      unfold full_content. rewrite firstn_app.
      replace (497 - length (title slide)) with 0 by (unfold len in E1; lia).
      cbn [firstn]. apply app_nil_r.
  - rewrite Z.gtb_ltb in E. apply Z.ltb_ge in E.
    split; [intros _; rewrite Hl; reflexivity|lia].
Qed.

(** X5. The title of a slide survives the budget: the first line of every
    slide finalized from the input is its title, as long as the title is
    shorter than 500 characters; a longer title is the whole slide, cut to
    its first 497 characters and "...". *)
Theorem scanned_slides_keep_title (text : pystr) :
  scanned_slides text = map format_slide_content (accumulators text)
  /\ Forall (fun slide =>
              ((len (title slide) < 500)%Z ->
               hd [] (split_lines (format_slide_content slide)) = title slide)
              /\ ((500 <= len (title slide))%Z ->
                  format_slide_content slide = firstn 497 (title slide) ++ lit "..."))
       (accumulators text).
Proof.
  split; [apply scanned_slides_accumulators|].
  eapply Forall_impl; [|apply accumulators_well_formed].
  intros slide Hw. apply format_slide_content_title, Hw.
Qed.

(** *** From the scan to the export path *)

Lemma stripped_starts_unspaced (raw : pystr) :
  truthy (strip raw) = true -> starts_unspaced (strip raw).
Proof.
  intros H. destruct (strip raw) as [|c r] eqn:E; [discriminate|].
  exists c, r. split; [reflexivity|exact (strip_head raw c r E)].
Qed.

Lemma acc_line_export_invariant (st : list slide_data * slide_data) (raw : pystr) :
  export_invariant st -> export_invariant (acc_line st raw).
Proof.
  destruct st as [done cur]. intros [Hd [Hs Hb]]. cbn [fst snd] in *.
  unfold acc_line.
  destruct (is_title_line (strip raw)) eqn:Et.
  - split; cbn [fst snd].
    + destruct (truthy (title cur)); [|exact Hd].
      apply Forall_app. split; [exact Hd|].
      constructor; [split; assumption|constructor].
    + split; cbn [subheading content]; [left; reflexivity|constructor].
  - destruct (has_subheading_marker (strip raw)) eqn:Em.
    + split; [exact Hd|]. cbn [snd]. split; cbn [subheading content]; [|exact Hb].
      right. split; [exact Em|].
      apply stripped_starts_unspaced, has_subheading_marker_truthy, Em.
    + destruct (has_bullet_marker (strip raw)) eqn:Eb.
      * split; [exact Hd|]. cbn [snd]. split; cbn [subheading content]; [exact Hs|].
        apply Forall_app. split; [exact Hb|].
        constructor; [|constructor]. split; [exact Em|].
        apply stripped_starts_unspaced, has_bullet_marker_truthy, Eb.
      * split; [exact Hd|split; assumption].
Qed.

Lemma accumulators_export_ready (text : pystr) :
  Forall export_ready (accumulators text).
Proof.
  unfold accumulators.
  assert (H : export_invariant (fold_left acc_line (split_lines text) ([], empty_slide))).
  { generalize (split_lines text). intros lines.
    assert (H0 : export_invariant ([], empty_slide)).
    { split; [constructor|]. split; [left; reflexivity|constructor]. }
    revert H0. generalize (@nil slide_data, empty_slide).
    induction lines as [|raw lines IH]; intros st Hst; [exact Hst|].
    cbn [fold_left]. apply IH, acc_line_export_invariant, Hst. }
  destruct (fold_left acc_line (split_lines text) ([], empty_slide)) as [done cur].
  destruct H as [Hd Hc]. cbn [fst snd] in *.
  destruct (truthy (title cur)); [|exact Hd].
  apply Forall_app. split; [exact Hd|]. constructor; [exact Hc|constructor].
Qed.

Lemma starts_unspaced_truthy (line : pystr) :
  starts_unspaced line -> truthy (strip line) = true.
Proof.
  intros (c & r & -> & Hc).
  pose proof (strip_not_blank c r Hc).
  destruct (strip (c :: r)); [contradiction|reflexivity].
Qed.

Lemma export_fold_bullets (bullets : list pystr) :
  Forall (fun bullet => has_subheading_marker bullet = false
                        /\ starts_unspaced bullet
                        /\ has_bullet_marker bullet = true) bullets ->
  forall subheading found,
    fold_left export_line bullets (subheading, found) = (subheading, found ++ bullets).
Proof.
  induction 1 as [|b bs (Hm & Hu & Hb) _ IH]; intros s found.
  - rewrite app_nil_r. reflexivity.
  - cbn [fold_left]. unfold export_line at 2.
    rewrite (starts_unspaced_truthy b Hu), Hm, Hb. cbn [andb].
    rewrite IH, <- app_assoc. reflexivity.
Qed.

Lemma export_reparse_format (i : nat) (slide : slide_data) :
  isspace_c 8226%N = false ->
  well_formed_acc slide ->
  export_ready slide ->
  (len (full_content slide) <= 500)%Z ->
  export_reparse i (format_slide_content slide) =
  (title slide, subheading slide, rendered_bullets slide)
  /\ export_bullets i (format_slide_content slide) = rendered_bullets slide.
Proof.
  intros Hsp Hw [Hs Hb] Hfit.
  assert (Hre : export_reparse i (format_slide_content slide) =
                (title slide, subheading slide, rendered_bullets slide)).
  { unfold format_slide_content. rewrite truncate_within_budget by exact Hfit.
    unfold export_reparse. rewrite split_lines_full_content by exact Hw.
    cbn [tl fold_left].
    assert (Hsub : export_line (lit "", []) (subheading slide) = (subheading slide, [])).
    { unfold export_line. destruct Hs as [->|[Hm Hu]]; [reflexivity|].
      rewrite (starts_unspaced_truthy _ Hu), Hm. reflexivity. }
    rewrite Hsub, export_fold_bullets; [reflexivity|].
    destruct (rendered_bullets_spec slide) as [-> _].
    destruct Hw as (_ & _ & _ & Hbm).
    apply Forall_firstn, Forall_app. split.
    - apply Forall_forall. intros b Hin.
      rewrite Forall_forall in Hb, Hbm.
      destruct (Hb b Hin) as [H1 H2]. repeat split; auto.
    - apply Forall_forall. intros b Hin. apply repeat_spec in Hin. subst b.
      split; [vm_compute; reflexivity|split; [|vm_compute; reflexivity]].
      eexists 8226%N, _. split; [vm_compute; reflexivity|exact Hsp]. }
  split; [exact Hre|].
  unfold export_bullets. rewrite Hre. cbn [snd].
  rewrite pad_to_five_spec.
  destruct (rendered_bullets_spec slide) as [_ Hl].
  replace (5 - length (rendered_bullets slide)) with 0 by lia.
  cbn [repeat]. rewrite app_nil_r. apply firstn_all2. lia.
Qed.

(** X6. What the scan renders the export path reads back.  When the bullet
    character is no white space, every slide finalized from the input whose
    joined text is within the budget is re-parsed to its own title and
    subheading and to the five to six bullets that were joined; the export
    path's own filler bullet is not used. *)
Theorem export_reads_back_rendered_slides (i : nat) (text : pystr) :
  isspace_c 8226%N = false ->
  Forall (fun slide =>
            (len (full_content slide) <= 500)%Z ->
            export_reparse i (format_slide_content slide) =
            (title slide, subheading slide, rendered_bullets slide)
            /\ export_bullets i (format_slide_content slide) = rendered_bullets slide)
    (accumulators text).
Proof.
  intros Hsp. apply Forall_forall. intros slide Hin Hfit.
  pose proof (accumulators_well_formed text) as Hw.
  pose proof (accumulators_export_ready text) as He.
  rewrite Forall_forall in Hw, He.
  exact (export_reparse_format i slide Hsp (Hw slide Hin) (He slide Hin) Hfit).
Qed.

(** X7. Whatever content string the client sends, the export path shows
    between five and six bullets: the bullets it finds, in order, padded to
    five with its filler and cut to the first six.  The title is the first
    line of the content whatever the slide index: the default "Slide i+1" is
    never used. *)
Theorem export_bullets_between_five_and_six (i j : nat) (text : pystr) :
  5 <= length (export_bullets i text) <= 6
  /\ export_bullets i text =
     firstn 6 (snd (export_reparse i text)
               ++ repeat export_filler_bullet
                    (5 - length (snd (export_reparse i text))))
  /\ fst (fst (export_reparse i text)) = hd [] (split_lines text)
  /\ export_reparse i text = export_reparse j text.
Proof.
  unfold export_bullets. rewrite pad_to_five_spec.
  split; [|split; [reflexivity|]].
  - rewrite length_firstn, length_app, repeat_length. lia.
  - unfold export_reparse.
    pose proof (split_lines_not_nil text).
    destruct (split_lines text) as [|t rest]; [contradiction|].
    cbn [tl hd].
    destruct (fold_left export_line rest (lit "", [])). split; reflexivity.
Qed.

(** X8. The display form of a title has at most 48 characters; a title of
    at most 45 characters is shown as it is, a longer one as its first 45
    characters and "...". *)
Theorem display_title_length (title : pystr) :
  (len (display_title title) <= 48)%Z
  /\ ((len title <= 45)%Z -> display_title title = title)
  /\ ((len title > 45)%Z -> display_title title = firstn 45 title ++ lit "...").
Proof.
  unfold display_title.
  change (slice_to title 45) with (firstn 45 title).
  destruct (len title >? 45)%Z eqn:E.
  - apply Z.gtb_lt in E. split; [|split; [lia|reflexivity]].
    rewrite len_app. unfold len in *. rewrite length_firstn.
    change (length (lit "...")) with 3. lia.
  - rewrite Z.gtb_ltb in E. apply Z.ltb_ge in E.
    assert (Hf : firstn 45 title = title) by (apply firstn_all2; unfold len in E; lia).
    split; [|split; [intros _|lia]].
    + rewrite len_app, Hf. change (len (lit "")) with 0%Z. lia.
    + rewrite Hf. apply app_nil_r.
Qed.

End Rendered.

(** ** The provider, the images and /generate *)

Section EndpointFacts.

Context {U : UnicodeData}.

Lemma get_comprehensive_yoga_content_length
    (outcome : openrouter_outcome) (asanas_name student_name : pystr) :
  length (get_comprehensive_yoga_content outcome asanas_name student_name) = 13.
Proof.
  destruct outcome as [|code [generated|]]; cbn [get_comprehensive_yoga_content];
    try reflexivity.
  destruct (code =? 200)%Z; [|reflexivity].
  apply parse_structured_content_cases.
Qed.

(** X9. The content provider returns exactly 13 slide bodies whatever the
    generation service does: the parsed text on a 200 answer that carries a
    text, and the fallback bank on every failure.  A 200 answer whose text
    has no title line gives the same deck as a failure. *)
Theorem get_comprehensive_yoga_content_total
    (outcome : openrouter_outcome) (asanas_name student_name : pystr) :
  length (get_comprehensive_yoga_content outcome asanas_name student_name) = 13
  /\ (forall generated,
        outcome = PostResponded 200 (Some generated) ->
        get_comprehensive_yoga_content outcome asanas_name student_name =
        parse_structured_content generated asanas_name)
  /\ ((forall generated, outcome <> PostResponded 200 (Some generated)) ->
      get_comprehensive_yoga_content outcome asanas_name student_name =
      get_enhanced_fallback_content asanas_name)
  /\ (forall generated,
        outcome = PostResponded 200 (Some generated) ->
        Forall (fun raw => is_title_line (strip raw) = false) (split_lines generated) ->
        get_comprehensive_yoga_content outcome asanas_name student_name =
        get_comprehensive_yoga_content PostRaised asanas_name student_name).
Proof.
  split; [|split; [|split]].
  - apply get_comprehensive_yoga_content_length.
  - intros generated ->. reflexivity.
  - intros Hne. destruct outcome as [|code [generated|]]; try reflexivity.
    cbn [get_comprehensive_yoga_content].
    destruct (code =? 200)%Z eqn:E; [|reflexivity].
    apply Z.eqb_eq in E. subst code. exfalso. exact (Hne generated eq_refl).
  - intros generated -> Hno. cbn [get_comprehensive_yoga_content Z.eqb Pos.eqb].
    destruct (parse_structured_content_cases generated asanas_name) as (_ & Hpad & _).
    rewrite Hpad; rewrite (no_titles_no_slides generated Hno); [reflexivity|simpl; lia].
Qed.

(** *** Images *)

Lemma alt_or_not_empty (alt_description : option pystr) (default : pystr) :
  default <> [] -> alt_or alt_description default <> [].
Proof.
  intros Hd. unfold alt_or. destruct alt_description as [[|c a]|]; simpl; try exact Hd.
  discriminate.
Qed.

Lemma lit_app_not_empty (a b : pystr) : a <> [] -> a ++ b <> [].
Proof. destruct a; [contradiction|discriminate]. Qed.

Lemma curated_image_facts (slide_number : nat) (search_query : pystr) :
  alt (curated_image slide_number search_query) <> []
  /\ source (curated_image slide_number search_query) = lit "curated"
  /\ url (curated_image slide_number search_query) =
     nth (slide_number mod 13) aesthetic_images []
  /\ In (url (curated_image slide_number search_query)) aesthetic_images.
Proof.
  unfold curated_image. cbn [alt source url].
  change (length aesthetic_images) with 13.
  split; [apply lit_app_not_empty; vm_compute; discriminate|].
  split; [reflexivity|split; [reflexivity|]].
  apply nth_In. change (length aesthetic_images) with 13.
  apply Nat.mod_upper_bound. discriminate.
Qed.

Lemma unsplash_image_facts (picked : photo) (search_query : pystr) :
  alt (unsplash_image picked search_query) <> []
  /\ source (unsplash_image picked search_query) = lit "unsplash"
  /\ url (unsplash_image picked search_query) = urls_regular picked
  /\ photographer (unsplash_image picked search_query) = user_name picked.
Proof.
  unfold unsplash_image. cbn [alt source url photographer].
  split; [|repeat split].
  apply alt_or_not_empty, lit_app_not_empty. vm_compute. discriminate.
Qed.

(** X10. [get_canva_style_image] gives no image only when a key is set and
    the photo search raised.  Every image it gives has a non-empty alt text;
    it is either a photo of the search results, with that photo's URL and
    photographer, or the curated image at index [slide_number mod 13]. *)
Theorem get_canva_style_image_result
    (api_key : pystr) (outcome : unsplash_outcome)
    (asanas_name : pystr) (slide_number : nat) :
  (get_canva_style_image api_key outcome asanas_name slide_number = None
   <-> truthy api_key = true /\ outcome = GetRaised)
  /\ forall img,
       get_canva_style_image api_key outcome asanas_name slide_number = Some img ->
       alt img <> []
       /\ ((source img = lit "unsplash"
            /\ exists results picked,
                 outcome = GetResponded 200 results
                 /\ In picked results
                 /\ url img = urls_regular picked
                 /\ photographer img = user_name picked)
           \/ (source img = lit "curated"
               /\ url img = nth (slide_number mod 13) aesthetic_images []
               /\ In (url img) aesthetic_images)).
Proof.
  assert (Hcur : forall img,
            Some (curated_image slide_number (search_query_for slide_number)) = Some img ->
            alt img <> []
            /\ (source img = lit "curated"
                /\ url img = nth (slide_number mod 13) aesthetic_images []
                /\ In (url img) aesthetic_images)).
  { intros img H.
    assert (E : img = curated_image slide_number (search_query_for slide_number))
      by congruence.
    rewrite E. apply curated_image_facts. }
  unfold get_canva_style_image. cbv zeta.
  destruct (truthy api_key) eqn:Ek.
  - destruct outcome as [|code results].
    + split; [split; [intros _; split; reflexivity|reflexivity]|discriminate].
    + destruct (code =? 200)%Z eqn:Ec.
      * apply Z.eqb_eq in Ec. subst code.
        destruct results as [|p ps].
        -- split; [split; [discriminate|intros [_ H]; discriminate]|].
           intros img H. destruct (Hcur img H) as [Ha Hc]. split; [exact Ha|right; exact Hc].
        -- destruct (nth_error (p :: ps) (slide_number mod length (p :: ps)))
             as [picked|] eqn:En.
           ++ split; [split; [discriminate|intros [_ H]; discriminate]|].
              intros img H.
              assert (E : img = unsplash_image picked (search_query_for slide_number))
                by congruence.
              rewrite E.
              destruct (unsplash_image_facts picked (search_query_for slide_number))
                as (Ha & Hs & Hu & Hp).
              split; [exact Ha|]. left. split; [exact Hs|].
              exists (p :: ps), picked. repeat split; try assumption.
              exact (nth_error_In _ _ En).
           ++ exfalso. apply nth_error_None in En.
              pose proof (Nat.mod_upper_bound slide_number (length (p :: ps))
                            ltac:(discriminate)). lia.
      * split; [split; [discriminate|intros [_ H]; discriminate]|].
        intros img H. destruct (Hcur img H) as [Ha Hc]. split; [exact Ha|right; exact Hc].
  - split; [split; [discriminate|intros [H _]; discriminate]|].
    intros img H. destruct (Hcur img H) as [Ha Hc]. split; [exact Ha|right; exact Hc].
Qed.

(** *** /generate *)

Lemma append_slides_spec
    (env : environment) (include_images : bool) (main_asana : pystr)
    (slide_contents : list pystr) :
  forall i slides,
    append_slides env include_images main_asana i slide_contents slides =
    slides ++ map (fun ic => slide_entry_at env include_images main_asana (fst ic) (snd ic))
                (combine (seq i (length slide_contents)) slide_contents).
Proof.
  induction slide_contents as [|content rest IH]; intros i slides.
  - simpl. rewrite app_nil_r. reflexivity.
  - cbn [append_slides length seq combine map]. rewrite IH, <- app_assoc. reflexivity.
Qed.

Lemma map_fst_combine_seq (A : Type) (l : list A) (i : nat) :
  map fst (combine (seq i (length l)) l) = seq i (length l).
Proof.
  revert i. induction l as [|x l IH]; intros i; [reflexivity|].
  simpl. rewrite IH. reflexivity.
Qed.

Lemma map_snd_combine_seq (A : Type) (l : list A) (i : nat) :
  map snd (combine (seq i (length l)) l) = l.
Proof.
  revert i. induction l as [|x l IH]; intros i; [reflexivity|].
  simpl. rewrite IH. reflexivity.
Qed.

Lemma build_presentation_slides
    (env : environment) (main_asana student_name : pystr) (include_images : bool) :
  let p := build_presentation env main_asana student_name include_images in
  length (presentation_slides p) = 13
  /\ presentation_asanas p = [main_asana]
  /\ presentation_student_name p = student_name
  /\ map entry_title (presentation_slides p) = map slide_label (seq 0 13)
  /\ map entry_content (presentation_slides p) =
     get_comprehensive_yoga_content (openrouter env) main_asana student_name
  /\ (include_images = false ->
      Forall (fun entry => entry_image entry = None) (presentation_slides p)).
Proof.
  unfold build_presentation. cbn [presentation_slides presentation_asanas
    presentation_student_name].
  rewrite append_slides_spec. cbn [app].
  set (contents := get_comprehensive_yoga_content (openrouter env) main_asana student_name).
  assert (Hlen : length contents = 13)
    by apply get_comprehensive_yoga_content_length.
  repeat split.
  - rewrite length_map, length_combine, length_seq, Hlen. reflexivity.
  - rewrite map_map. cbn [entry_title slide_entry_at].
    rewrite <- (map_map fst slide_label), map_fst_combine_seq, Hlen. reflexivity.
  - rewrite map_map. cbn [entry_content slide_entry_at].
    apply map_snd_combine_seq.
  - intros ->. apply Forall_map, Forall_forall.
    intros ic _. reflexivity.
Qed.

(** X11. /generate answers OPTIONS with an empty 200.  A POST is answered
    with status 500 when the body is no JSON object or when the student name
    is present and no string, whatever the asanas are.  Otherwise it is
    answered with status 400 when the asanas are missing or falsy, with
    status 500 when their first item cannot be read or is no string, and else
    with a presentation that depends on the asanas only through their first
    item: exactly 13 slides, titled "Slide 1" to "Slide 13", whose contents
    are the provider's 13 bodies for that asana, and without images when
    [include_images] is falsy. *)
Theorem generate_presentation_response (env : environment) (body : option json) :
  generate_presentation env OPTIONS body = EmptyOk
  /\ ((forall data, body <> Some (JObject data)) ->
      generate_presentation env POST body = failed_to_generate env)
  /\ forall data,
       body = Some (JObject data) ->
       let asanas := get_default (obj_get (lit "asanas") data) (JArray []) in
       let name_value :=
         get_default (obj_get (lit "student_name") data) (JString (lit "")) in
       let include_images :=
         get_default (obj_get (lit "include_images") data) (JBool true) in
       ((forall name, name_value <> JString name) ->
        generate_presentation env POST body = failed_to_generate env)
       /\ forall name,
            name_value = JString name ->
            (json_truthy asanas = false ->
             generate_presentation env POST body =
             ErrorJson 400 (lit "Please select one asana"))
            /\ (json_truthy asanas = true ->
                (forall main_asana, subscript_zero asanas <> Some (JString main_asana)) ->
                generate_presentation env POST body = failed_to_generate env)
            /\ forall main_asana,
                 json_truthy asanas = true ->
                 subscript_zero asanas = Some (JString main_asana) ->
                 let p := build_presentation env main_asana (strip name)
                            (json_truthy include_images) in
                 generate_presentation env POST body = PresentationJson p
                 /\ length (presentation_slides p) = 13
                 /\ presentation_asanas p = [main_asana]
                 /\ map entry_title (presentation_slides p) = map slide_label (seq 0 13)
                 /\ map entry_content (presentation_slides p) =
                    get_comprehensive_yoga_content (openrouter env) main_asana (strip name)
                 /\ (json_truthy include_images = false ->
                     Forall (fun entry => entry_image entry = None)
                       (presentation_slides p)).
Proof.
  split; [reflexivity|split].
  - intros Hno. unfold generate_presentation.
    destruct body as [[| | | | | |data]|]; try reflexivity.
    exfalso. exact (Hno data eq_refl).
  - intros data -> asanas name_value include_images.
    unfold generate_presentation. fold asanas name_value include_images.
    split.
    + intros Hno. destruct name_value; try reflexivity.
      exfalso. exact (Hno s eq_refl).
    + intros name ->. split; [|split].
      * intros Hf. rewrite Hf. reflexivity.
      * intros Ht Hno. rewrite Ht. cbn [negb].
        destruct (subscript_zero asanas) as [[| | | | main| |]|]; try reflexivity.
        exfalso. exact (Hno main eq_refl).
      * intros main_asana Ht Hs. rewrite Ht, Hs. cbn [negb].
        split; [reflexivity|].
        destruct (build_presentation_slides env main_asana (strip name)
                    (json_truthy include_images)) as (H1 & H2 & _ & H4 & H5 & H6).
        repeat split; assumption.
Qed.

End EndpointFacts.

(** * Worked examples

    The pipeline on concrete inputs, with the tables [ascii_tables]. *)

Section Examples.

#[local] Existing Instance ascii_tables.

Ltac eval_list :=
  match goal with
  | |- Forall _ ?l => let l' := eval vm_compute in l in change l with l'
  end.

Example strip_example : strip (lit "  SLIDE 1: A  ") = lit "SLIDE 1: A".
Proof. vm_compute. reflexivity. Qed.

Example bullet_kept_verbatim :
  hd [] (parse_structured_content (lit "SLIDE 1: A\n• Example point") (lit "Tadasana")) =
  lit "SLIDE 1: A\n\n• Example point\n• Additional detailed point for comprehensive coverage\n• Additional detailed point for comprehensive coverage\n• Additional detailed point for comprehensive coverage\n• Additional detailed point for comprehensive coverage".
Proof. vm_compute. reflexivity. Qed.

(** The truncation of [six_long_bullets] keeps three of the six bullets. *)
Example six_long_bullets_rendered :
  hd [] (parse_structured_content six_long_bullets (lit "Tadasana")) =
  join_lines [lit "SLIDE 1"; lit ""; long_bullet; long_bullet; long_bullet].
Proof. vm_compute. reflexivity. Qed.

(** C2 fails as stated: the first slide made from [six_long_bullets] is cut
    to the budget and keeps three bullet lines. *)
Lemma six_long_bullets_lose_bullets :
  ~ Forall (fun slide => 5 <= length (bullet_lines slide) <= 6)
      (parse_structured_content six_long_bullets (lit "Tadasana")).
Proof.
  intros H.
  assert (E : forallb (fun slide => (5 <=? length (bullet_lines slide))
                                    && (length (bullet_lines slide) <=? 6))
                (parse_structured_content six_long_bullets (lit "Tadasana")) = false)
    by (vm_compute; reflexivity).
  apply Bool.not_true_iff_false in E. apply E.
  apply forallb_forall. intros x Hx.
  rewrite Forall_forall in H. specialize (H x Hx).
  apply andb_true_iff. split; apply Nat.leb_le; lia.
Qed.

(** C3 fails as stated: with no title in the input and a subject of 71
    letters the first slide is the first fallback entry, 501 characters. *)
Lemma long_subject_exceeds_budget :
  ~ Forall (fun slide => (len slide <= 500)%Z)
      (parse_structured_content (lit "") (repeat 65%N 71)).
Proof.
  intros H.
  assert (E : forallb (fun slide => (len slide <=? 500)%Z)
                (parse_structured_content (lit "") (repeat 65%N 71)) = false)
    by (vm_compute; reflexivity).
  apply Bool.not_true_iff_false in E. apply E.
  apply forallb_forall. intros x Hx.
  rewrite Forall_forall in H. specialize (H x Hx).
  apply Z.leb_le. exact H.
Qed.


(** C5 fails as stated: "slide 1: x" begins with the token in lower case
    and starts no slide; the deck is the fallback bank. *)
Lemma lower_case_slide_is_no_title :
  begins_with_slide_any_case (lit "slide 1: x") = true
  /\ is_title_line (strip (lit "slide 1: x")) = false
  /\ parse_structured_content (lit "slide 1: x") (lit "Tadasana") =
     get_enhanced_fallback_content (lit "Tadasana").
Proof. repeat split; vm_compute; reflexivity. Qed.

Lemma slide_14_is_a_title :
  startswith (strip (lit "SLIDE 14: SOMETHING")) (lit "SLIDE") = true
  /\ scan_line ([], empty_slide) (lit "SLIDE 14: SOMETHING") =
     ([], {| title := lit "SLIDE 14: SOMETHING"; subheading := lit ""; content := [] |})
  /\ is_title_line (strip (lit "Slide 2: mixed case")) = false
  /\ is_title_line (strip (lit "sLIDE 3")) = false.
Proof.
  assert (H : startswith (strip (lit "SLIDE 14: SOMETHING")) (lit "SLIDE") = true)
    by (vm_compute; reflexivity).
  split; [exact H|].
  destruct (slide_prefix_is_case_sensitive [] empty_slide (lit "SLIDE 14: SOMETHING"))
    as [Hpos _].
  destruct (Hpos H) as (_ & Hs & _).
  split; [rewrite Hs; vm_compute; reflexivity|].
  assert (Hlow : Forall (fun c => islower_c c = true) (lit "slide"))
    by (vm_compute; repeat constructor).
  split.
  - destruct (slide_prefix_is_case_sensitive [] empty_slide (lit "Slide 2: mixed case"))
      as [_ Hneg].
    apply Hneg; [exact Hlow|vm_compute; reflexivity|vm_compute; reflexivity].
  - destruct (slide_prefix_is_case_sensitive [] empty_slide (lit "sLIDE 3"))
      as [_ Hneg].
    apply Hneg; [exact Hlow|vm_compute; reflexivity|vm_compute; reflexivity].
Defined.

(** C8 fails as stated: a subject with line breaks brings lines of its own
    into the first body, which then has ten lines, the second of them no
    subheading, and seven bullet lines. *)
Lemma subject_with_line_breaks_misshapes_first_body :
  ~ Forall (fun body => body_ok body = true)
      (get_enhanced_fallback_content (lit "x\n- y\n- z"))
  /\ split_lines (hd [] (get_enhanced_fallback_content (lit "x\n- y\n- z"))) =
     lit "MASTERING X" :: lit "- Y" :: lit "- Z"
     :: skipn 1 (split_lines (hd [] (get_enhanced_fallback_content (lit "Tadasana"))))
  /\ length (split_lines (hd [] (get_enhanced_fallback_content (lit "x\n- y\n- z")))) = 10
  /\ length (bullet_lines (hd [] (get_enhanced_fallback_content (lit "x\n- y\n- z")))) = 7.
Proof.
  split; [|split; [|split]; vm_compute; reflexivity].
  intros H.
  assert (E : forallb body_ok (get_enhanced_fallback_content (lit "x\n- y\n- z")) = false)
    by (vm_compute; reflexivity).
  apply Bool.not_true_iff_false in E. apply E.
  apply forallb_forall. rewrite Forall_forall in H. exact H.
Qed.

Lemma tadasana_bank_shape :
  no_NL (upper (lit "Tadasana"))
  /\ Forall (fun body =>
              body_ok body = true
              /\ length (split_lines body) = 8
              /\ length (bullet_lines body) = 6)
       (get_enhanced_fallback_content (lit "Tadasana")).
Proof.
  assert (H : no_NL (upper (lit "Tadasana")))
    by (apply no_NL_check; vm_compute; reflexivity).
  split; [exact H|].
  destruct (get_enhanced_fallback_content_shape (lit "Tadasana"))
    as (_ & _ & _ & _ & _ & Hshape).
  exact (Hshape H).
Defined.

Lemma prose_only_gives_fallback :
  Forall (fun raw => is_title_line (strip raw) = false)
    (split_lines (lit "hello\n• bullet"))
  /\ parse_structured_content (lit "hello\n• bullet") (lit "Tadasana") =
     get_enhanced_fallback_content (lit "Tadasana").
Proof.
  assert (H : Forall (fun raw => is_title_line (strip raw) = false)
                (split_lines (lit "hello\n• bullet")))
    by (eval_list; repeat (constructor; [vm_compute; reflexivity|]); constructor).
  split; [exact H|].
  exact (parse_without_titles_is_fallback (lit "hello\n• bullet") (lit "Tadasana") H).
Defined.

Lemma five_titles_padded_from_index_5 :
  length (detected_titles five_titles) = 5
  /\ firstn 5 (parse_structured_content five_titles (lit "Tadasana")) =
     map format_slide_content (accumulators five_titles)
  /\ nth 5 (parse_structured_content five_titles (lit "Tadasana")) [] =
     nth (5 mod 13) (get_enhanced_fallback_content (lit "Tadasana")) [].
Proof.
  assert (Hk : length (detected_titles five_titles) = 5) by (vm_compute; reflexivity).
  assert (H : length (detected_titles five_titles) < 13) by (rewrite Hk; lia).
  destruct (parse_pads_cyclically five_titles (lit "Tadasana") H) as (_ & _ & Hf & Hn).
  rewrite Hk in Hf. split; [exact Hk|split; [exact Hf|]].
  apply (Hn 5). rewrite Hk. lia.
Defined.

(** C9 fails as stated: the export path does not strip the line, so the
    indented bullet is no bullet for it, while the scan keeps it. *)
Lemma indented_bullet_read_differently :
  normalizer_reading indented_bullet =
  Some (lit "SLIDE 1: T", lit "", [lit "• point"])
  /\ export_reparse 0 indented_bullet = (lit "SLIDE 1: T", lit "", [])
  /\ normalizer_reading indented_bullet <> Some (export_reparse 0 indented_bullet).
Proof.
  repeat split; try (vm_compute; reflexivity).
  vm_compute. discriminate.
Qed.

Lemma one_slide_read_alike :
  normalizer_reading one_slide = Some (export_reparse 0 one_slide)
  /\ export_reparse 0 one_slide =
     (lit "SLIDE 1: POSE", lit "🎯 SUBHEADING: Begin",
      [lit "• first point"; lit "- second point"]).
Proof.
  split; [|vm_compute; reflexivity].
  apply export_reparse_agrees_with_scan.
  - eval_list. repeat (constructor; [vm_compute; reflexivity|]). constructor.
  - vm_compute. reflexivity.
  - eval_list. repeat (constructor; [vm_compute; reflexivity|]). constructor.
Defined.

Example truncate_below_three :
  truncate_structured_content (lit "ab") 0 = lit "...".
Proof. vm_compute. reflexivity. Qed.

Lemma truncate_to_five_fits :
  (len (truncate_structured_content (lit "aaaaaaaaaa") 5) <= 5)%Z.
Proof.
  exact (proj1 (truncate_structured_content_fits (lit "aaaaaaaaaa") 5 ltac:(lia))).
Defined.

Lemma six_long_bullets_longest_prefix :
  (len six_long_bullets > 500)%Z
  /\ exists k,
       truncate_loop 500 (split_lines six_long_bullets) [] 0 =
       firstn k (split_lines six_long_bullets)
       /\ k < length (split_lines six_long_bullets)
       /\ (forall j, 1 <= j <= k ->
             (len (join_lines (firstn j (split_lines six_long_bullets))) < 500)%Z)
       /\ (500 <= len (join_lines (firstn (S k) (split_lines six_long_bullets))))%Z.
Proof.
  assert (H : (len six_long_bullets > 500)%Z) by (vm_compute; reflexivity).
  split; [exact H|].
  exact (truncate_loop_keeps_longest_prefix six_long_bullets H).
Defined.

Lemma untidy_text_parsed_like_tidy_text :
  significant_lines untidy_text = significant_lines tidy_text
  /\ parse_structured_content untidy_text (lit "Tadasana") =
     parse_structured_content tidy_text (lit "Tadasana").
Proof.
  assert (H : significant_lines untidy_text = significant_lines tidy_text)
    by (vm_compute; reflexivity).
  split; [exact H|].
  exact (parse_structured_content_reads_significant_lines
           untidy_text tidy_text (lit "Tadasana") H).
Defined.

Lemma one_slide_read_back :
  Forall (fun slide =>
            (len (full_content slide) <= 500)%Z ->
            export_reparse 0 (format_slide_content slide) =
            (title slide, subheading slide, rendered_bullets slide)
            /\ export_bullets 0 (format_slide_content slide) = rendered_bullets slide)
    (accumulators one_slide).
Proof.
  apply (export_reads_back_rendered_slides 0 one_slide). reflexivity.
Defined.

Example generate_without_asanas :
  forall env,
    generate_presentation env POST (Some (JObject [])) =
    ErrorJson 400 (lit "Please select one asana").
Proof. reflexivity. Qed.

(** A null student name is answered 500, before the asanas are looked at. *)
Example generate_null_student_name :
  forall env,
    generate_presentation env POST
      (Some (JObject [(lit "student_name", JNull)])) =
    ErrorJson 500 (lit "Failed to generate: " ++ exception_text env).
Proof. reflexivity. Qed.

Example generate_first_asana_only :
  forall env,
    generate_presentation env POST
      (Some (JObject [(lit "asanas", JArray [JString (lit "Tadasana"); JInt 7]);
                      (lit "include_images", JBool false)])) =
    PresentationJson (build_presentation env (lit "Tadasana") (lit "") false).
Proof. reflexivity. Qed.

End Examples.
